(** * SLA time engine: business-hours clock, breach scan, compliance report

    Shallow embedding of [add_business_hours] and of the two methods of
    [SLAService] (desktop.py).

    Conventions.
    - A naive [datetime] is the proleptic ordinal of its date (1 is
      0001-01-01, a Monday) together with its clock fields.  The date range
      of Python's datetime (ordinals 1 .. 3652059, the last one being
      9999-12-31) is part of the model: arithmetic that leaves it raises
      [OverflowError].
    - A [timedelta] is its exact length in microseconds.
    - In the clock and in [generate_sla_report], Python floats are
      idealised as exact rationals ([Q]).  Every float that occurs in the
      concrete runs of the clock (0, 1, 2, 9, 0/60) is exactly
      representable, so those runs agree with binary64 arithmetic.  The
      report is modelled a second time ([generate_sla_report_in]) with the
      float operations as a parameter, which binary64 instantiates.
    - The ticket table is the list of its rows in the order in which the
      store returns them; [query.filter(p).all()] is [filter p]. *)

From Stdlib Require Import ZArith QArith Lia Lqa List String Ascii Bool.
From Stdlib Require Import DecimalString.
From Stdlib Require Floats.
Import ListNotations.
Open Scope Z_scope.

(** ** Outcome of a Python call *)

Inductive exn : Type :=
| OverflowError.

Inductive outcome (A : Type) : Type :=
| Returned (a : A)
| Raised (e : exn).
Arguments Returned {A} a.
Arguments Raised {A} e.

Definition bind {A B : Type} (o : outcome A) (k : A -> outcome B) : outcome B :=
  match o with
  | Returned a => k a
  | Raised e => Raised e
  end.

Notation "x <- c ;; k" := (bind c (fun x => k))
  (at level 61, c at next level, right associativity).

(** The call ended in an exception instead of a value. *)
Definition raises {A : Type} (o : outcome A) : Prop :=
  exists e, o = Raised e.

(** ** datetime and timedelta *)

Module Datetime.

Record datetime : Type := mkdt {
  ordinal : Z;
  hour : Z;
  minute : Z;
  second : Z;
  microsecond : Z
}.

Definition MAXORDINAL : Z := 3652059.

Definition us_per_second : Z := 1000000.
Definition us_per_minute : Z := 60 * us_per_second.
Definition us_per_hour : Z := 60 * us_per_minute.
Definition us_per_day : Z := 24 * us_per_hour.

(** The values the constructor of datetime accepts. *)
Definition well_formed (d : datetime) : Prop :=
  1 <= ordinal d <= MAXORDINAL /\
  0 <= hour d < 24 /\ 0 <= minute d < 60 /\
  0 <= second d < 60 /\ 0 <= microsecond d < 1000000.

(** [weekday()]: Monday is 0, Sunday is 6. *)
Definition weekday (d : datetime) : Z := (ordinal d + 6) mod 7.

(** [d.replace(hour=h, minute=0, second=0, microsecond=0)] *)
Definition replace_hour (d : datetime) (h : Z) : datetime :=
  mkdt (ordinal d) h 0 0 0.

(** Microseconds since midnight. *)
Definition time_us (d : datetime) : Z :=
  hour d * us_per_hour + minute d * us_per_minute
  + second d * us_per_second + microsecond d.

(** Microseconds since the (virtual) midnight of ordinal 0. *)
Definition to_us (d : datetime) : Z := ordinal d * us_per_day + time_us d.

(** [d + td]: the clock fields are summed with the delta, the carry goes
    into the ordinal, and a date outside 1 .. MAXORDINAL is an error. *)
Definition add (d : datetime) (td : Z) : outcome datetime :=
  let t := time_us d + td in
  let days := ordinal d + t / us_per_day in
  let r := t mod us_per_day in
  if (0 <? days) && (days <=? MAXORDINAL)
  then Returned (mkdt days
                      (r / us_per_hour)
                      ((r / us_per_minute) mod 60)
                      ((r / us_per_second) mod 60)
                      (r mod us_per_second))
  else Raised OverflowError.

(** [a - b], a timedelta. *)
Definition sub (a b : datetime) : Z := to_us a - to_us b.

Definition ltb (a b : datetime) : bool := to_us a <? to_us b.
Definition leb (a b : datetime) : bool := to_us a <=? to_us b.

(** Rounding of a rational to the nearest integer, ties to even. *)
Definition round_half_even (q : Q) : Z :=
  let n := Qnum q in
  let d := Zpos (Qden q) in
  let f := n / d in
  match 2 * (n mod d) ?= d with
  | Lt => f
  | Gt => f + 1
  | Eq => if Z.even f then f else f + 1
  end.

(** [timedelta(days=n)] *)
Definition timedelta_days (n : Z) : Z := n * us_per_day.

(** [timedelta(hours=h)] for a float [h]: rounded to whole microseconds. *)
Definition timedelta_hours (h : Q) : Z :=
  round_half_even (h * inject_Z us_per_hour).

(** [td.total_seconds()] *)
Definition total_seconds (td : Z) : Q := inject_Z td / inject_Z us_per_second.

Definition decimal (z : Z) : string := NilZero.string_of_int (Z.to_int z).

(** ["%0<w>d" % z] for a non-negative [z]. *)
Fixpoint zeros (n : nat) : string :=
  match n with
  | O => EmptyString
  | S n' => String "0" (zeros n')
  end.

Definition padded (w : nat) (z : Z) : string :=
  let s := decimal z in
  (zeros (w - String.length s) ++ s)%string.

(** [str(td)], as in ["1 day, 0:00:05"] or ["0:00:00.000001"]. *)
Definition timedelta_str (td : Z) : string :=
  let days := td / us_per_day in
  let seconds := (td mod us_per_day) / us_per_second in
  let microseconds := td mod us_per_second in
  let mm := seconds / 60 in
  let ss := seconds mod 60 in
  let hh := mm / 60 in
  let mm := mm mod 60 in
  let s := (decimal hh ++ ":" ++ padded 2 mm ++ ":" ++ padded 2 ss)%string in
  let plural := if Z.eqb (Z.abs days) 1 then EmptyString else "s"%string in
  let s := if days =? 0 then s
           else (decimal days ++ " day" ++ plural ++ ", " ++ s)%string in
  if microseconds =? 0 then s
  else (s ++ "." ++ padded 6 microseconds)%string.

End Datetime.
Import Datetime.

(** ** The business-hours clock *)

Module Calendar.

Definition Qlt_bool (a b : Q) : bool := negb (Qle_bool b a).

(** The part of one iteration from "hours remaining in current business
    day" on. *)
Definition consume (current_time : datetime) (remaining_hours : Q)
  : outcome (datetime * Q) :=
  let hours_left_today :=
    (inject_Z 18 - inject_Z (hour current_time)
     - inject_Z (minute current_time) / inject_Z 60)%Q in
  if Qle_bool remaining_hours hours_left_today then
    t <- add current_time (timedelta_hours remaining_hours) ;;
    Returned (t, 0%Q)
  else
    t <- add current_time (timedelta_days 1) ;;
    Returned (replace_hour t 9, (remaining_hours - hours_left_today)%Q).

(** One pass through the body of the [while]; a [continue] ends the pass. *)
Definition loop_body (current_time : datetime) (remaining_hours : Q)
  : outcome (datetime * Q) :=
  if 5 <=? weekday current_time then
    t <- add current_time (timedelta_days 1) ;;
    Returned (replace_hour t 9, remaining_hours)
  else if hour current_time <? 9 then
    consume (replace_hour current_time 9) remaining_hours
  else if 18 <=? hour current_time then
    t <- add current_time (timedelta_days 1) ;;
    Returned (replace_hour t 9, remaining_hours)
  else
    consume current_time remaining_hours.

(** [while remaining_hours > 0: ...; return current_time], with a bound on
    the number of passes; [None] means the bound was reached. *)
Fixpoint while_loop (fuel : nat) (current_time : datetime) (remaining_hours : Q)
  : option (outcome datetime) :=
  match fuel with
  | O => None
  | S fuel' =>
      if Qlt_bool 0 remaining_hours then
        match loop_body current_time remaining_hours with
        | Returned (t, r) => while_loop fuel' t r
        | Raised e => Some (Raised e)
        end
      else Some (Returned current_time)
  end.

(** Passes allowed for a start instant: one per calendar day that is left
    in the date range, and two more. *)
Definition passes (start_time : datetime) : nat :=
  S (S (Z.to_nat (MAXORDINAL - ordinal start_time))).

Definition add_business_hours (start_time : datetime) (hours : Q)
  : option (outcome datetime) :=
  while_loop (passes start_time) start_time hours.

End Calendar.
Import Calendar.

(** ** Tickets, breach scan, compliance report *)

Module SLAService.

Record Customer : Type := mkCustomer {
  tier : string
}.

(** The columns of [Ticket] the service reads.  [status],
    [first_response_at] and [resolved_at] can be NULL and are only tested
    in SQL, [customer] is the association tested for absence.  The two due
    instants are set right after the insert (main.py) and are read by
    [generate_sla_report] without a NULL test; they are taken as set. *)
Record Ticket : Type := mkTicket {
  id : Z;
  status : option string;
  priority : string;
  category : string;
  created_at : datetime;
  first_response_at : option datetime;
  resolved_at : option datetime;
  first_response_due : datetime;
  resolution_due : datetime;
  customer : option Customer
}.

Record BreachRecord : Type := mkBreach {
  ticket_id : Z;
  breach_type : string;
  breach_duration : string;
  breach_priority : string;
  customer_tier : string
}.

Definition is_null {A : Type} (o : option A) : bool :=
  match o with
  | None => true
  | Some _ => false
  end.

(** [ticket.customer.tier if ticket.customer else 'standard'] *)
Definition tier_of (t : Ticket) : string :=
  match customer t with
  | Some c => tier c
  | None => "standard"%string
  end.

(** SQL [column != value]: on a NULL column the comparison is unknown and
    the row is not selected. *)
Definition sql_ne (column : option string) (value : string) : bool :=
  match column with
  | Some c => negb (String.eqb c value)
  | None => false
  end.

Definition first_response_filter (current_time : datetime) (t : Ticket) : bool :=
  ltb (first_response_due t) current_time
  && is_null (first_response_at t)
  && sql_ne (status t) "closed".

Definition resolution_filter (current_time : datetime) (t : Ticket) : bool :=
  ltb (resolution_due t) current_time
  && is_null (resolved_at t)
  && sql_ne (status t) "closed".

Definition first_response_record (current_time : datetime) (t : Ticket)
  : BreachRecord :=
  let breach_time := sub current_time (first_response_due t) in
  mkBreach (id t) "first_response" (timedelta_str breach_time)
           (priority t) (tier_of t).

Definition resolution_record (current_time : datetime) (t : Ticket)
  : BreachRecord :=
  let breach_time := sub current_time (resolution_due t) in
  mkBreach (id t) "resolution" (timedelta_str breach_time)
           (priority t) (tier_of t).

(** [check_sla_breaches]; [current_time] is the value of
    [datetime.utcnow()] read at entry. *)
Definition check_sla_breaches (db : list Ticket) (current_time : datetime)
  : list BreachRecord :=
  let breached_tickets := [] in
  let first_response_breaches := filter (first_response_filter current_time) db in
  let breached_tickets :=
    breached_tickets ++ map (first_response_record current_time) first_response_breaches in
  let resolution_breaches := filter (resolution_filter current_time) db in
  let breached_tickets :=
    breached_tickets ++ map (resolution_record current_time) resolution_breaches in
  breached_tickets.

Record SLAFigures : Type := mkFigures {
  compliance_rate : Q;
  tickets_met : Z;
  avg_time_hours : Q
}.

(** The report.  [period_start] and [period_end] stand for the ISO-8601
    renderings of the two bounds; [avg_time_hours] is
    [avg_response_time_hours] in [first_response_sla] and
    [avg_resolution_time_hours] in [resolution_sla]. *)
Record SLAReport : Type := mkReport {
  period_start : datetime;
  period_end : datetime;
  total_tickets : Z;
  first_response_sla : SLAFigures;
  resolution_sla : SLAFigures
}.

(** [if category:] is false for [None] and for the empty string. *)
Definition truthy (category : option string) : option string :=
  match category with
  | Some EmptyString => None
  | c => c
  end.

Definition query_tickets (db : list Ticket) (start_date end_date : datetime)
    (category_arg : option string) : list Ticket :=
  let query :=
    filter (fun t => leb start_date (created_at t) && leb (created_at t) end_date) db in
  match truthy category_arg with
  | Some c => filter (fun t => String.eqb (category t) c) query
  | None => query
  end.

(** The accumulators of the [for ticket in tickets] loop. *)
Record tally : Type := mkTally {
  first_response_met : Z;
  resolution_met : Z;
  first_response_times : list Q;
  resolution_times : list Q
}.

(** [(a - b).total_seconds() / 3600] *)
Definition hours_between (a b : datetime) : Q :=
  (total_seconds (sub a b) / inject_Z 3600)%Q.

Definition tally_ticket (s : tally) (ticket : Ticket) : tally :=
  let s :=
    match first_response_at ticket with
    | Some at_ =>
        let response_time := hours_between at_ (created_at ticket) in
        mkTally (if leb at_ (first_response_due ticket)
                 then first_response_met s + 1 else first_response_met s)
                (resolution_met s)
                (first_response_times s ++ [response_time])
                (resolution_times s)
    | None => s
    end in
  match resolved_at ticket with
  | Some at_ =>
      let resolution_time := hours_between at_ (created_at ticket) in
      mkTally (first_response_met s)
              (if leb at_ (resolution_due ticket)
               then resolution_met s + 1 else resolution_met s)
              (first_response_times s)
              (resolution_times s ++ [resolution_time])
  | None => s
  end.

(** [sum(xs)] *)
Definition sum (xs : list Q) : Q := fold_left Qplus xs 0%Q.

(** [len(xs)] *)
Definition len {A : Type} (xs : list A) : Z := Z.of_nat (List.length xs).

(** [sum(xs) / len(xs) if xs else 0] *)
Definition average (xs : list Q) : Q :=
  match xs with
  | [] => 0%Q
  | _ => (sum xs / inject_Z (len xs))%Q
  end.

(** [(met / total * 100) if total > 0 else 0] *)
Definition compliance (met total : Z) : Q :=
  if 0 <? total then (inject_Z met / inject_Z total * inject_Z 100)%Q else 0%Q.

(** [round(x, 2)] *)
Definition round2 (x : Q) : Q :=
  Qred (Qmake (round_half_even (x * inject_Z 100)) 100).

Definition generate_sla_report (db : list Ticket) (start_date end_date : datetime)
    (category_arg : option string) : outcome SLAReport :=
  let tickets := query_tickets db start_date end_date category_arg in
  let total_tickets := len tickets in
  let s := fold_left tally_ticket tickets (mkTally 0 0 [] []) in
  let avg_first_response_time := average (first_response_times s) in
  let avg_resolution_time := average (resolution_times s) in
  let first_response_compliance := compliance (first_response_met s) total_tickets in
  let resolution_compliance := compliance (resolution_met s) total_tickets in
  Returned
    (mkReport start_date end_date total_tickets
       (mkFigures (round2 first_response_compliance)
                  (first_response_met s)
                  (round2 avg_first_response_time))
       (mkFigures (round2 resolution_compliance)
                  (resolution_met s)
                  (round2 avg_resolution_time))).

End SLAService.
Import SLAService.

Example timedelta_str_day : timedelta_str 86405000000 = "1 day, 0:00:05"%string.
Proof. reflexivity. Qed.

Example timedelta_str_us : timedelta_str 1 = "0:00:00.000001"%string.
Proof. reflexivity. Qed.

Example timedelta_str_days : timedelta_str (2 * us_per_day + 30 * us_per_hour) = "3 days, 6:00:00"%string.
Proof. reflexivity. Qed.

(** ** Facts about the outcome type and the rational tests *)

Lemma Qlt_bool_iff (a b : Q) : Qlt_bool a b = true <-> (a < b)%Q.
Proof.
  unfold Qlt_bool. rewrite negb_true_iff.
  split; intro H.
  - apply Qnot_le_lt. intro L. apply Qle_bool_iff in L. congruence.
  - destruct (Qle_bool b a) eqn:E; [|reflexivity].
    apply Qle_bool_iff in E. exfalso. apply (Qlt_not_le _ _ H E).
Qed.

Lemma Qlt_bool_false (a b : Q) : Qlt_bool a b = false <-> (b <= a)%Q.
Proof.
  unfold Qlt_bool. rewrite negb_false_iff. apply Qle_bool_iff.
Qed.

(** ** The loop: more passes never change a result *)

Lemma while_loop_unfold (fuel : nat) (t : datetime) (r : Q) :
  while_loop (S fuel) t r =
  if Qlt_bool 0 r then
    match loop_body t r with
    | Returned (t', r') => while_loop fuel t' r'
    | Raised e => Some (Raised e)
    end
  else Some (Returned t).
Proof. reflexivity. Qed.

Lemma while_loop_mono (n : nat) :
  forall t r o, while_loop n t r = Some o ->
  forall m, (n <= m)%nat -> while_loop m t r = Some o.
Proof.
  induction n as [|n IH]; intros t r o H m Hm; [discriminate|].
  destruct m as [|m]; [lia|].
  simpl in *.
  destruct (Qlt_bool 0 r); [|exact H].
  destruct (loop_body t r) as [[t' r']|e]; [|exact H].
  apply IH; [exact H|lia].
Qed.

(** C3: zero hours returns the start instant unchanged, whatever the
    instant is (inside or outside business hours, on any weekday): the loop
    is not entered, so nothing is snapped. *)
Theorem add_business_hours_zero (t : datetime) :
  add_business_hours t 0 = Some (Returned t).
Proof. reflexivity. Qed.

(** A call is rejected when it ends in an exception. *)
Definition rejected {A : Type} (r : option (outcome A)) : Prop :=
  exists o, r = Some o /\ raises o.

Definition thursday_noon : datetime := mkdt 739204 12 30 0 0.

(** C4, as stated, fails: a negative duration is not rejected, the call
    returns normally. *)
Lemma negative_hours_not_rejected :
  weekday thursday_noon = 3 /\
  add_business_hours thursday_noon (-1) = Some (Returned thursday_noon) /\
  ~ rejected (add_business_hours thursday_noon (-1)).
Proof.
  split; [reflexivity|]. split; [reflexivity|].
  intros [o [H [e He]]]. subst o. discriminate H.
Qed.

(** C4, amended: for every start instant and every negative [hours] the
    guard [remaining_hours > 0] fails at once and the start instant is
    returned unchanged; no exception is raised. *)
Theorem add_business_hours_negative (t : datetime) (hours : Q) :
  (hours < 0)%Q ->
  add_business_hours t hours = Some (Returned t) /\
  ~ rejected (add_business_hours t hours).
Proof.
  intro H.
  assert (E : add_business_hours t hours = Some (Returned t)).
  { unfold add_business_hours, passes. rewrite while_loop_unfold.
    replace (Qlt_bool 0 hours) with false; [reflexivity|].
    symmetry. apply Qlt_bool_false. apply Qlt_le_weak, H. }
  split; [exact E|].
  rewrite E. intros [o [Ho [e He]]]. subst o. discriminate Ho.
Qed.

Lemma add_business_hours_negative_witness :
  add_business_hours thursday_noon (-5 # 2) = Some (Returned thursday_noon) /\
  ~ rejected (add_business_hours thursday_noon (-5 # 2)).
Proof.
  apply (add_business_hours_negative thursday_noon (-5 # 2)).
  reflexivity.
Defined.

(** ** Stepping the calendar by one day *)

Definition clock_ok (d : datetime) : Prop :=
  0 <= hour d < 24 /\ 0 <= minute d < 60 /\
  0 <= second d < 60 /\ 0 <= microsecond d < 1000000.

Definition next_morning (d : datetime) : datetime :=
  mkdt (ordinal d + 1) 9 0 0 0.

Lemma well_formed_clock (d : datetime) : well_formed d -> clock_ok d.
Proof. unfold well_formed, clock_ok. tauto. Qed.

Lemma time_us_range (d : datetime) :
  clock_ok d -> 0 <= time_us d < us_per_day.
Proof.
  unfold clock_ok, time_us, us_per_day, us_per_hour, us_per_minute, us_per_second.
  lia.
Qed.

Lemma add_one_day (d : datetime) (r : Q) :
  clock_ok d ->
  (t <- add d (timedelta_days 1) ;; Returned (replace_hour t 9, r)) =
  if (0 <? ordinal d + 1) && (ordinal d + 1 <=? MAXORDINAL)
  then Returned (next_morning d, r)
  else Raised OverflowError.
Proof.
  intro Hc. apply time_us_range in Hc.
  unfold add, timedelta_days.
  assert (Hq : (time_us d + 1 * us_per_day) / us_per_day = 1).
  { rewrite Z.div_add by (unfold us_per_day, us_per_hour, us_per_minute, us_per_second; lia).
    rewrite Z.div_small by exact Hc. reflexivity. }
  rewrite Hq.
  destruct ((0 <? ordinal d + 1) && (ordinal d + 1 <=? MAXORDINAL)); reflexivity.
Qed.


Lemma add_same_day (d : datetime) (td : Z) :
  0 <= time_us d + td < us_per_day ->
  add d td =
  if (0 <? ordinal d) && (ordinal d <=? MAXORDINAL)
  then Returned (mkdt (ordinal d)
                      ((time_us d + td) / us_per_hour)
                      (((time_us d + td) / us_per_minute) mod 60)
                      (((time_us d + td) / us_per_second) mod 60)
                      ((time_us d + td) mod us_per_second))
  else Raised OverflowError.
Proof.
  intro H. unfold add.
  rewrite Z.div_small by exact H.
  rewrite Z.mod_small by exact H.
  rewrite Z.add_0_r. reflexivity.
Qed.

Lemma in_range_true (n : Z) :
  1 <= n <= MAXORDINAL -> (0 <? n) && (n <=? MAXORDINAL) = true.
Proof.
  intro H. apply andb_true_iff. split; [apply Z.ltb_lt|apply Z.leb_le]; lia.
Qed.

Lemma clock_ok_morning (n h : Z) : 0 <= h < 24 -> clock_ok (mkdt n h 0 0 0).
Proof. unfold clock_ok; simpl. lia. Qed.

(** C2: from Friday 17:00, two business hours end on the following Monday
    at 10:00.  The passes of the loop are spelled out: one hour is used up
    on Friday, Saturday and Sunday are skipped, and the remaining hour is
    used on Monday.  [d] is the ordinal of any Friday that has its Monday
    inside the date range. *)
Theorem friday_17_plus_2_is_monday_10 (d : Z) :
  1 <= d -> d + 3 <= MAXORDINAL ->
  weekday (mkdt d 17 0 0 0) = 4 ->
  let friday_17 := mkdt d 17 0 0 0 in
  let saturday_9 := mkdt (d + 1) 9 0 0 0 in
  let sunday_9 := mkdt (d + 2) 9 0 0 0 in
  let monday_9 := mkdt (d + 3) 9 0 0 0 in
  let monday_10 := mkdt (d + 3) 10 0 0 0 in
  add_business_hours friday_17 2 = Some (Returned monday_10) /\
  weekday monday_10 = 0 /\
  exists r : Q,
    (r == 1)%Q /\
    loop_body friday_17 2 = Returned (saturday_9, r) /\
    loop_body saturday_9 r = Returned (sunday_9, r) /\
    loop_body sunday_9 r = Returned (monday_9, r) /\
    loop_body monday_9 r = Returned (monday_10, 0%Q).
Proof.
  intros H1 H3 Hfri friday_17 saturday_9 sunday_9 monday_9 monday_10.
  unfold weekday in Hfri; simpl in Hfri.
  assert (Wsat : weekday saturday_9 = 5)
    by (unfold weekday; simpl; Z.div_mod_to_equations; lia).
  assert (Wsun : weekday sunday_9 = 6)
    by (unfold weekday; simpl; Z.div_mod_to_equations; lia).
  assert (Wmon : weekday monday_9 = 0)
    by (unfold weekday; simpl; Z.div_mod_to_equations; lia).
  set (r := (2 - (inject_Z 18 - inject_Z 17 - inject_Z 0 / inject_Z 60))%Q).
  assert (S1 : loop_body friday_17 2 = Returned (saturday_9, r)).
  { unfold loop_body, weekday. simpl ordinal. rewrite Hfri.
    simpl. unfold consume. simpl.
    rewrite add_one_day by (apply clock_ok_morning; lia).
    simpl ordinal. rewrite in_range_true by lia. reflexivity. }
  assert (S2 : loop_body saturday_9 r = Returned (sunday_9, r)).
  { unfold loop_body. rewrite Wsat. simpl.
    rewrite add_one_day by (apply clock_ok_morning; lia).
    simpl ordinal. rewrite in_range_true by lia.
    unfold next_morning, sunday_9. simpl.
    replace (d + 1 + 1) with (d + 2) by lia. reflexivity. }
  assert (S3 : loop_body sunday_9 r = Returned (monday_9, r)).
  { unfold loop_body. rewrite Wsun. simpl.
    rewrite add_one_day by (apply clock_ok_morning; lia).
    simpl ordinal. rewrite in_range_true by lia.
    unfold next_morning, monday_9. simpl.
    replace (d + 2 + 1) with (d + 3) by lia. reflexivity. }
  assert (S4 : loop_body monday_9 r = Returned (monday_10, 0%Q)).
  { unfold loop_body. rewrite Wmon. simpl.
    unfold consume. simpl.
    rewrite add_same_day by (vm_compute; split; congruence).
    simpl ordinal. rewrite in_range_true by lia. reflexivity. }
  split.
  - apply (while_loop_mono 5).
    + simpl. rewrite S1. simpl. rewrite S2. simpl. rewrite S3. simpl.
      rewrite S4. reflexivity.
    + unfold add_business_hours, passes. simpl ordinal. lia.
  - split; [unfold weekday; simpl; Z.div_mod_to_equations; lia|].
    exists r. repeat split; assumption.
Qed.

Lemma friday_17_plus_2_witness :
  add_business_hours (mkdt 739205 17 0 0 0) 2
  = Some (Returned (mkdt 739208 10 0 0 0)).
Proof.
  refine (proj1 (friday_17_plus_2_is_monday_10 739205 _ _ _)).
  - lia.
  - unfold MAXORDINAL. lia.
  - reflexivity.
Defined.

(** ** Progress of the loop *)

Lemma next_morning_well_formed (d : datetime) :
  (0 <? ordinal d + 1) && (ordinal d + 1 <=? MAXORDINAL) = true ->
  well_formed (next_morning d).
Proof.
  intro E. apply andb_true_iff in E. destruct E as [E1 E2].
  apply Z.ltb_lt in E1. apply Z.leb_le in E2.
  unfold well_formed, next_morning; simpl. lia.
Qed.

Lemma day_step (d t' : datetime) (r r' : Q) :
  clock_ok d ->
  (t <- add d (timedelta_days 1) ;; Returned (replace_hour t 9, r))
  = Returned (t', r') ->
  t' = next_morning d /\ r' = r /\ well_formed t'.
Proof.
  intros Hc H. rewrite add_one_day in H by exact Hc.
  destruct ((0 <? _) && _) eqn:E; [|discriminate].
  injection H as <- <-.
  split; [reflexivity|]. split; [reflexivity|].
  apply next_morning_well_formed, E.
Qed.





(** ** Rounding to whole microseconds *)

Lemma round_half_even_nonneg (q : Q) :
  (0 <= q)%Q -> 0 <= round_half_even q.
Proof.
  destruct q as [n d]. unfold Qle, round_half_even; cbn [Qnum Qden inject_Z].
  intro H. rewrite Z.mul_1_r in H.
  assert (0 <= n / Z.pos d) by (apply Z.div_pos; lia).
  destruct (2 * (n mod Z.pos d) ?= Z.pos d); [destruct (Z.even _)| |]; lia.
Qed.

Lemma round_half_even_le (q : Q) (z : Z) :
  (q <= inject_Z z)%Q -> round_half_even q <= z.
Proof.
  destruct q as [n d]. unfold Qle, round_half_even; cbn [Qnum Qden inject_Z].
  intro H. rewrite Z.mul_1_r in H.
  pose proof (Z.div_mod n (Z.pos d) ltac:(lia)) as E.
  pose proof (Z.mod_pos_bound n (Z.pos d) ltac:(lia)) as B.
  set (f := n / Z.pos d) in *. set (m := n mod Z.pos d) in *.
  assert (F : f <= z) by nia.
  assert (G : 0 < m -> f + 1 <= z) by nia.
  destruct (2 * m ?= Z.pos d) eqn:C.
  - apply Z.compare_eq in C. destruct (Z.even f); [exact F|apply G; lia].
  - exact F.
  - apply Z.compare_gt_iff in C. apply G. lia.
Qed.

Lemma hours_to_us (r : Q) (h m : Z) :
  (r <= inject_Z 18 - inject_Z h - inject_Z m / inject_Z 60)%Q ->
  (r * inject_Z us_per_hour
   <= inject_Z ((18 - h) * us_per_hour - m * us_per_minute))%Q.
Proof.
  intro H.
  change us_per_hour with 3600000000. change us_per_minute with 60000000.
  unfold Z.sub.
  repeat (rewrite inject_Z_plus || rewrite inject_Z_opp || rewrite inject_Z_mult).
  change (inject_Z 18) with 18%Q in *.
  change (inject_Z 60) with 60%Q in *.
  change (inject_Z 3600000000) with 3600000000%Q.
  change (inject_Z 60000000) with 60000000%Q.
  unfold Qdiv in H. change (/ 60)%Q with (1 # 60)%Q in H.
  set (a := inject_Z h) in *. set (b := inject_Z m) in *.
  lra.
Qed.


Lemma while_loop_done (fuel : nat) (t : datetime) (o : outcome datetime) :
  while_loop fuel t 0 = Some o -> o = Returned t.
Proof.
  destruct fuel; [discriminate|].
  rewrite while_loop_unfold. simpl. congruence.
Qed.
















(** ** The breach scan *)

(** [now > due] *)
Definition past (due now : datetime) : Prop := to_us due < to_us now.

(** The status is set and is not "closed". *)
Definition open_status (t : Ticket) : Prop :=
  exists s, status t = Some s /\ s <> "closed"%string.

(** The breach conditions as the queries test them. *)
Definition first_response_breached (now : datetime) (t : Ticket) : Prop :=
  first_response_at t = None /\ past (first_response_due t) now /\
  open_status t.

Definition resolution_breached (now : datetime) (t : Ticket) : Prop :=
  resolved_at t = None /\ past (resolution_due t) now /\
  open_status t.

(** The breach conditions in the words of the data model, where
    "status <> closed" also holds of a ticket without a status. *)
Definition first_response_breached_as_stated (now : datetime) (t : Ticket)
  : Prop :=
  first_response_at t = None /\ past (first_response_due t) now /\
  status t <> Some "closed"%string.

Definition resolution_breached_as_stated (now : datetime) (t : Ticket)
  : Prop :=
  resolved_at t = None /\ past (resolution_due t) now /\
  status t <> Some "closed"%string.

Lemma sql_ne_closed (t : Ticket) :
  sql_ne (status t) "closed" = true <-> open_status t.
Proof.
  unfold sql_ne, open_status. destruct (status t) as [c|].
  - rewrite negb_true_iff, <- not_true_iff_false, String.eqb_eq.
    split.
    + intro H. exists c. split; [reflexivity|exact H].
    + intros [s [E H]]. injection E as <-. exact H.
  - split; [discriminate|]. intros [s [E _]]. discriminate E.
Qed.

Lemma is_null_true {A : Type} (o : option A) : is_null o = true <-> o = None.
Proof. destruct o; simpl; split; congruence. Qed.

Lemma first_response_filter_iff (now : datetime) (t : Ticket) :
  first_response_filter now t = true <-> first_response_breached now t.
Proof.
  unfold first_response_filter, first_response_breached, past, ltb.
  rewrite !andb_true_iff, sql_ne_closed, is_null_true, Z.ltb_lt. tauto.
Qed.

Lemma resolution_filter_iff (now : datetime) (t : Ticket) :
  resolution_filter now t = true <-> resolution_breached now t.
Proof.
  unfold resolution_filter, resolution_breached, past, ltb.
  rewrite !andb_true_iff, sql_ne_closed, is_null_true, Z.ltb_lt. tauto.
Qed.

(** The records of one breach type, and the records of one ticket. *)
Definition of_type (ty : string) (r : BreachRecord) : bool :=
  String.eqb (breach_type r) ty.

Definition of_ticket (i : Z) (r : BreachRecord) : bool :=
  ticket_id r =? i.

Definition records_of (ty : string) (i : Z) (out : list BreachRecord)
  : list BreachRecord :=
  filter (of_ticket i) (filter (of_type ty) out).

Section RecordsOfOneKind.

Variable p : Ticket -> bool.
Variable mk : Ticket -> BreachRecord.
Variable ty : string.
Hypothesis mk_id : forall t, ticket_id (mk t) = id t.
Hypothesis mk_type : forall t, breach_type (mk t) = ty.

Lemma filter_type_same (l : list Ticket) :
  filter (of_type ty) (map mk l) = map mk l.
Proof.
  induction l as [|t l IH]; simpl; [reflexivity|].
  unfold of_type at 1. rewrite mk_type, String.eqb_refl. f_equal. exact IH.
Qed.

Lemma filter_type_other (ty' : string) (l : list Ticket) :
  ty <> ty' -> filter (of_type ty') (map mk l) = [].
Proof.
  intro N. induction l as [|t l IH]; simpl; [reflexivity|].
  unfold of_type at 1. rewrite mk_type.
  destruct (String.eqb_spec ty ty'); [contradiction|exact IH].
Qed.

Lemma no_record_of_absent (i : Z) (db : list Ticket) :
  ~ In i (map id db) ->
  filter (of_ticket i) (map mk (filter p db)) = [].
Proof.
  induction db as [|u db IH]; simpl; intro N; [reflexivity|].
  destruct (p u); simpl.
  - unfold of_ticket at 1. rewrite mk_id.
    destruct (Z.eqb_spec (id u) i); [exfalso; apply N; left; assumption|].
    apply IH. intro; apply N; right; assumption.
  - apply IH. intro; apply N; right; assumption.
Qed.

Lemma records_of_present (t : Ticket) (db : list Ticket) :
  NoDup (map id db) -> In t db ->
  filter (of_ticket (id t)) (map mk (filter p db))
  = if p t then [mk t] else [].
Proof.
  induction db as [|u db IH]; simpl; intros ND Hin; [contradiction|].
  inversion ND as [|? ? Hni ND']; subst.
  destruct Hin as [->|Hin].
  - destruct (p t); simpl.
    + unfold of_ticket at 1. rewrite mk_id, Z.eqb_refl.
      f_equal. apply no_record_of_absent, Hni.
    + apply no_record_of_absent, Hni.
  - assert (Hne : id u <> id t).
    { intro E. apply Hni. rewrite E. apply in_map, Hin. }
    destruct (p u); simpl.
    + unfold of_ticket at 1. rewrite mk_id.
      destruct (Z.eqb_spec (id u) (id t)); [contradiction|].
      apply IH; assumption.
    + apply IH; assumption.
Qed.

End RecordsOfOneKind.

Lemma check_sla_breaches_eq (db : list Ticket) (now : datetime) :
  check_sla_breaches db now =
  map (first_response_record now) (filter (first_response_filter now) db)
  ++ map (resolution_record now) (filter (resolution_filter now) db).
Proof. reflexivity. Qed.

Lemma first_response_part (db : list Ticket) (now : datetime) :
  filter (of_type "first_response") (check_sla_breaches db now)
  = map (first_response_record now) (filter (first_response_filter now) db).
Proof.
  rewrite check_sla_breaches_eq, filter_app.
  rewrite (filter_type_same (first_response_record now) "first_response")
    by reflexivity.
  rewrite (filter_type_other (resolution_record now) "resolution")
    by (reflexivity || discriminate).
  apply app_nil_r.
Qed.

Lemma resolution_part (db : list Ticket) (now : datetime) :
  filter (of_type "resolution") (check_sla_breaches db now)
  = map (resolution_record now) (filter (resolution_filter now) db).
Proof.
  rewrite check_sla_breaches_eq, filter_app.
  rewrite (filter_type_other (first_response_record now) "first_response")
    by (reflexivity || discriminate).
  rewrite (filter_type_same (resolution_record now) "resolution")
    by reflexivity.
  reflexivity.
Qed.

Lemma length_if_one (A : Type) (b : bool) (x : A) :
  (List.length (if b then [x] else []) = 1%nat <-> b = true) /\
  (List.length (if b then [x] else []) <= 1)%nat.
Proof. destruct b; simpl; split; try split; try lia; congruence. Qed.

(** C1, amended: in a table whose ticket ids are distinct (the primary
    key), the scan holds exactly one "first_response" record for a ticket
    iff the ticket has no first response, its first-response due instant
    is before [now] and its status is set and is not "closed"; likewise
    one "resolution" record iff it is unresolved, past its resolution due
    instant and its status is set and not "closed".  There is never more
    than one record of a type for a ticket; a ticket that is closed or has
    no status has no record at all, and a ticket meeting both conditions
    has exactly the two records, one of each type. *)
Theorem check_sla_breaches_exact (db : list Ticket) (now : datetime) (t : Ticket) :
  NoDup (map id db) -> In t db ->
  let out := check_sla_breaches db now in
  (List.length (records_of "first_response" (id t) out) = 1%nat
   <-> first_response_breached now t) /\
  (List.length (records_of "resolution" (id t) out) = 1%nat
   <-> resolution_breached now t) /\
  (List.length (records_of "first_response" (id t) out) <= 1)%nat /\
  (List.length (records_of "resolution" (id t) out) <= 1)%nat /\
  (status t = Some "closed"%string \/ status t = None ->
   filter (of_ticket (id t)) out = []) /\
  (first_response_breached now t -> resolution_breached now t ->
   filter (of_ticket (id t)) out
   = [first_response_record now t; resolution_record now t]).
Proof.
  intros ND Hin out.
  assert (F : records_of "first_response" (id t) out
              = if first_response_filter now t
                then [first_response_record now t] else []).
  { unfold records_of, out. rewrite first_response_part.
    apply records_of_present; [reflexivity|assumption|assumption]. }
  assert (R : records_of "resolution" (id t) out
              = if resolution_filter now t
                then [resolution_record now t] else []).
  { unfold records_of, out. rewrite resolution_part.
    apply records_of_present; [reflexivity|assumption|assumption]. }
  assert (A : filter (of_ticket (id t)) out
              = (if first_response_filter now t
                 then [first_response_record now t] else [])
                ++ (if resolution_filter now t
                    then [resolution_record now t] else [])).
  { unfold out. rewrite check_sla_breaches_eq, filter_app.
    rewrite !records_of_present by (reflexivity || assumption).
    reflexivity. }
  rewrite F, R, A.
  rewrite <- first_response_filter_iff, <- resolution_filter_iff.
  repeat split; try apply length_if_one.
  - intro C.
    unfold first_response_filter, resolution_filter.
    destruct C as [C|C]; rewrite C; simpl; rewrite !andb_false_r; reflexivity.
  - intros -> ->. reflexivity.
Qed.

(** A small table: ticket 1 is open and past both deadlines, ticket 2 is
    closed and past both, ticket 3 was answered late and is unresolved,
    ticket 4 is not due yet. *)
Definition monday_9 : datetime := mkdt 739201 9 0 0 0.
Definition monday_13 : datetime := mkdt 739201 13 0 0 0.
Definition tuesday_9 : datetime := mkdt 739202 9 0 0 0.
Definition tuesday_15 : datetime := mkdt 739202 15 0 0 0.
Definition friday_9 : datetime := mkdt 739205 9 0 0 0.

Definition ticket_1 : Ticket :=
  mkTicket 1 (Some "open"%string) "high" "billing" monday_9 None None
           monday_13 tuesday_9 (Some (mkCustomer "premium")).
Definition ticket_2 : Ticket :=
  mkTicket 2 (Some "closed"%string) "low" "general" monday_9 None None
           monday_13 tuesday_9 None.
Definition ticket_3 : Ticket :=
  mkTicket 3 (Some "in_progress"%string) "medium" "billing" monday_9 (Some tuesday_9) None
           monday_13 tuesday_15 None.
Definition ticket_4 : Ticket :=
  mkTicket 4 (Some "open"%string) "medium" "technical" tuesday_15 None None
           friday_9 friday_9 None.

Definition sample_db : list Ticket := [ticket_1; ticket_2; ticket_3; ticket_4].

Example check_sla_breaches_sample :
  check_sla_breaches sample_db thursday_noon =
  [ mkBreach 1 "first_response" "2 days, 23:30:00" "high" "premium";
    mkBreach 1 "resolution" "2 days, 3:30:00" "high" "premium";
    mkBreach 3 "resolution" "1 day, 21:30:00" "medium" "standard" ].
Proof. reflexivity. Qed.

Lemma sample_db_ids : NoDup (map id sample_db).
Proof.
  unfold sample_db; simpl.
  repeat (constructor; [simpl; intuition discriminate|]).
  constructor.
Defined.

Lemma check_sla_breaches_exact_witness :
  filter (of_ticket 1) (check_sla_breaches sample_db thursday_noon)
  = [first_response_record thursday_noon ticket_1;
     resolution_record thursday_noon ticket_1].
Proof.
  refine (proj2 (proj2 (proj2 (proj2 (proj2
    (check_sla_breaches_exact sample_db thursday_noon ticket_1 _ _))))) _ _).
  - exact sample_db_ids.
  - left; reflexivity.
  - unfold first_response_breached, past. simpl.
    split; [reflexivity|]. split; [reflexivity|].
    exists "open"%string. split; [reflexivity|discriminate].
  - unfold resolution_breached, past. simpl.
    split; [reflexivity|]. split; [reflexivity|].
    exists "open"%string. split; [reflexivity|discriminate].
Defined.

(** A ticket without a status, unanswered, unresolved and past both due
    instants. *)
Definition ticket_without_status : Ticket :=
  mkTicket 9 None "high" "billing" monday_9 None None
           monday_13 tuesday_9 None.

(** C1, as stated, fails: a ticket whose status is NULL meets "no first
    response, past due, status not closed" for both milestones, yet the
    queries do not select it (the SQL test [status != 'closed'] is unknown
    on NULL) and the scan has no record for it. *)
Lemma ticket_without_status_not_reported :
  NoDup (map id [ticket_without_status]) /\
  In ticket_without_status [ticket_without_status] /\
  first_response_breached_as_stated thursday_noon ticket_without_status /\
  resolution_breached_as_stated thursday_noon ticket_without_status /\
  check_sla_breaches [ticket_without_status] thursday_noon = [] /\
  List.length (records_of "first_response" (id ticket_without_status)
                 (check_sla_breaches [ticket_without_status] thursday_noon))
  <> 1%nat.
Proof.
  split; [repeat constructor; intros []|].
  split; [left; reflexivity|].
  split; [split; [reflexivity|split; [reflexivity|discriminate]]|].
  split; [split; [reflexivity|split; [reflexivity|discriminate]]|].
  split; [reflexivity|discriminate].
Qed.

Lemma nth_error_typed_app (A B : list BreachRecord) (ta tb : string) :
  Forall (fun r => breach_type r = ta) A ->
  Forall (fun r => breach_type r = tb) B ->
  ta <> tb ->
  forall i j ri rj,
    nth_error (A ++ B) i = Some ri -> breach_type ri = ta ->
    nth_error (A ++ B) j = Some rj -> breach_type rj = tb ->
    (i < j)%nat.
Proof.
  intros FA FB N i j ri rj Hi Ti Hj Tj.
  assert (Li : (i < List.length A)%nat).
  { destruct (Nat.lt_ge_cases i (List.length A)) as [L|L]; [exact L|].
    rewrite nth_error_app2 in Hi by exact L.
    apply nth_error_In in Hi.
    rewrite Forall_forall in FB. apply FB in Hi. congruence. }
  assert (Lj : (List.length A <= j)%nat).
  { destruct (Nat.lt_ge_cases j (List.length A)) as [L|L]; [|exact L].
    rewrite nth_error_app1 in Hj by exact L.
    apply nth_error_In in Hj.
    rewrite Forall_forall in FA. apply FA in Hj. congruence. }
  lia.
Qed.

Lemma Forall_map_record (mk : Ticket -> BreachRecord) (ty : string)
    (l : list Ticket) :
  (forall t, breach_type (mk t) = ty) ->
  Forall (fun r => breach_type r = ty) (map mk l).
Proof.
  intro H. apply Forall_forall. intros r Hr.
  apply in_map_iff in Hr. destruct Hr as [t [<- _]]. apply H.
Qed.

(** C6: in the output every "first_response" record stands before every
    "resolution" record, and the records of each type are, in order, the
    records of the breaching tickets in their input order. *)
Theorem check_sla_breaches_order (db : list Ticket) (now : datetime) :
  let out := check_sla_breaches db now in
  (forall i j ri rj,
     nth_error out i = Some ri -> breach_type ri = "first_response"%string ->
     nth_error out j = Some rj -> breach_type rj = "resolution"%string ->
     (i < j)%nat) /\
  out = filter (of_type "first_response") out ++ filter (of_type "resolution") out /\
  filter (of_type "first_response") out
  = map (first_response_record now) (filter (first_response_filter now) db) /\
  filter (of_type "resolution") out
  = map (resolution_record now) (filter (resolution_filter now) db) /\
  map ticket_id (filter (of_type "first_response") out)
  = map id (filter (first_response_filter now) db) /\
  map ticket_id (filter (of_type "resolution") out)
  = map id (filter (resolution_filter now) db).
Proof.
  intro out. unfold out.
  rewrite first_response_part, resolution_part.
  split.
  - rewrite check_sla_breaches_eq.
    apply nth_error_typed_app.
    + apply Forall_map_record. reflexivity.
    + apply Forall_map_record. reflexivity.
    + discriminate.
  - repeat split; try reflexivity; rewrite map_map; reflexivity.
Qed.

(** C10: every record of the scan carries the rendering of a strictly
    positive duration, namely of [now] minus the due instant of the ticket
    the record was made for. *)
Theorem breach_duration_positive (db : list Ticket) (now : datetime) :
  Forall (fun r =>
            exists t td,
              In t db /\ ticket_id r = id t /\
              breach_duration r = timedelta_str td /\ 0 < td /\
              ((breach_type r = "first_response"%string /\
                td = sub now (first_response_due t)) \/
               (breach_type r = "resolution"%string /\
                td = sub now (resolution_due t))))
         (check_sla_breaches db now).
Proof.
  rewrite check_sla_breaches_eq. apply Forall_app. split.
  - apply Forall_forall. intros r Hr.
    apply in_map_iff in Hr. destruct Hr as [t [<- Ht]].
    apply filter_In in Ht. destruct Ht as [Hin Hp].
    apply first_response_filter_iff in Hp. destruct Hp as [_ [Hp _]].
    exists t, (sub now (first_response_due t)).
    repeat split; try assumption.
    + unfold sub, past in *. lia.
    + left. split; reflexivity.
  - apply Forall_forall. intros r Hr.
    apply in_map_iff in Hr. destruct Hr as [t [<- Ht]].
    apply filter_In in Ht. destruct Ht as [Hin Hp].
    apply resolution_filter_iff in Hp. destruct Hp as [_ [Hp _]].
    exists t, (sub now (resolution_due t)).
    repeat split; try assumption.
    + unfold sub, past in *. lia.
    + right. split; reflexivity.
Qed.

(** ** The compliance report *)

(** The report of an empty selection. *)
Definition empty_report (start_date end_date : datetime) : SLAReport :=
  mkReport start_date end_date 0 (mkFigures 0 0 0) (mkFigures 0 0 0).

Lemma report_of_no_tickets (db : list Ticket) (start_date end_date : datetime)
    (category_arg : option string) :
  query_tickets db start_date end_date category_arg = [] ->
  generate_sla_report db start_date end_date category_arg
  = Returned (empty_report start_date end_date).
Proof.
  intro H. unfold generate_sla_report. rewrite H. reflexivity.
Qed.

(** C7: when no ticket is selected the call returns normally, with
    [total_tickets = 0], both compliance rates 0 (the division is not
    evaluated) and, beyond the claim, both averages and met-counts 0. *)
Theorem empty_selection_report (db : list Ticket) (start_date end_date : datetime)
    (category_arg : option string) :
  query_tickets db start_date end_date category_arg = [] ->
  exists r,
    generate_sla_report db start_date end_date category_arg = Returned r /\
    total_tickets r = 0 /\
    compliance_rate (first_response_sla r) = 0%Q /\
    compliance_rate (resolution_sla r) = 0%Q /\
    r = empty_report start_date end_date.
Proof.
  intro H. exists (empty_report start_date end_date).
  rewrite (report_of_no_tickets _ _ _ _ H).
  repeat split.
Qed.

Lemma empty_selection_report_witness :
  exists r,
    generate_sla_report sample_db monday_9 friday_9 (Some "sales"%string)
    = Returned r /\
    total_tickets r = 0 /\
    compliance_rate (first_response_sla r) = 0%Q /\
    compliance_rate (resolution_sla r) = 0%Q /\
    r = empty_report monday_9 friday_9.
Proof.
  apply (empty_selection_report sample_db monday_9 friday_9 (Some "sales"%string)).
  reflexivity.
Defined.

Lemma inverted_range_selects_nothing (db : list Ticket)
    (start_date end_date : datetime) (category_arg : option string) :
  ltb end_date start_date = true ->
  query_tickets db start_date end_date category_arg = [].
Proof.
  intro H. unfold ltb in H. apply Z.ltb_lt in H.
  assert (E : filter (fun t => leb start_date (created_at t)
                               && leb (created_at t) end_date) db = []).
  { induction db as [|t db IH]; simpl; [reflexivity|].
    destruct (leb start_date (created_at t) && leb (created_at t) end_date)
      eqn:B; [|exact IH].
    exfalso. apply andb_true_iff in B. destruct B as [B1 B2].
    unfold leb in B1, B2. apply Z.leb_le in B1, B2. lia. }
  unfold query_tickets. rewrite E.
  destruct (truthy category_arg); reflexivity.
Qed.

(** C8, as stated, fails: with the bounds in the wrong order the call
    does not raise; it returns the report of an empty selection. *)
Lemma inverted_range_not_rejected :
  ltb monday_9 friday_9 = true /\
  generate_sla_report sample_db friday_9 monday_9 None
  = Returned (empty_report friday_9 monday_9) /\
  ~ raises (generate_sla_report sample_db friday_9 monday_9 None).
Proof.
  split; [reflexivity|]. split; [reflexivity|].
  intros [e H]. discriminate H.
Qed.

(** C8, amended: for every range with [start_date > end_date] no ticket
    satisfies both bounds, and the call returns the all-zero report of an
    empty selection without raising. *)
Theorem inverted_range_report (db : list Ticket) (start_date end_date : datetime)
    (category_arg : option string) :
  ltb end_date start_date = true ->
  generate_sla_report db start_date end_date category_arg
  = Returned (empty_report start_date end_date) /\
  ~ raises (generate_sla_report db start_date end_date category_arg).
Proof.
  intro H.
  pose proof (report_of_no_tickets db start_date end_date category_arg
                (inverted_range_selects_nothing _ _ _ _ H)) as E.
  split; [exact E|].
  rewrite E. intros [e He]. discriminate He.
Qed.

Lemma inverted_range_report_witness :
  generate_sla_report sample_db friday_9 tuesday_9 (Some "billing"%string)
  = Returned (empty_report friday_9 tuesday_9) /\
  ~ raises (generate_sla_report sample_db friday_9 tuesday_9 (Some "billing"%string)).
Proof.
  apply (inverted_range_report sample_db friday_9 tuesday_9 (Some "billing"%string)).
  reflexivity.
Defined.

(** The selections the report's figures are taken over, in the words of
    the specification. *)
Definition has_first_response (t : Ticket) : bool :=
  negb (is_null (first_response_at t)).

Definition is_resolved (t : Ticket) : bool :=
  negb (is_null (resolved_at t)).

(** [first_response_at - created_at] in hours (for a ticket that has one). *)
Definition response_time (t : Ticket) : Q :=
  match first_response_at t with
  | Some at_ => hours_between at_ (created_at t)
  | None => 0%Q
  end.

Definition resolution_time (t : Ticket) : Q :=
  match resolved_at t with
  | Some at_ => hours_between at_ (created_at t)
  | None => 0%Q
  end.

(** Met: the instant is present and not after its due instant. *)
Definition first_response_on_time (t : Ticket) : bool :=
  match first_response_at t with
  | Some at_ => leb at_ (first_response_due t)
  | None => false
  end.

Definition resolved_on_time (t : Ticket) : bool :=
  match resolved_at t with
  | Some at_ => leb at_ (resolution_due t)
  | None => false
  end.

(** The mean of a selection; 0 for an empty one. *)
Definition mean (xs : list Q) : Q :=
  match xs with
  | [] => 0%Q
  | _ :: _ => (fold_left Qplus xs 0 / inject_Z (Z.of_nat (List.length xs)))%Q
  end.

Lemma average_is_mean (xs : list Q) : average xs = mean xs.
Proof. destruct xs; reflexivity. Qed.

Lemma len_cons {A : Type} (x : A) (l : list A) : len (x :: l) = len l + 1.
Proof. unfold len. simpl List.length. lia. Qed.

Lemma len_nil {A : Type} : len (@nil A) = 0.
Proof. reflexivity. Qed.

Arguments len : simpl never.

(** What the [for] loop has accumulated after a run over [l]. *)
Lemma tally_fold (l : list Ticket) :
  forall s,
    let s' := fold_left tally_ticket l s in
    first_response_times s'
    = first_response_times s ++ map response_time (filter has_first_response l) /\
    resolution_times s'
    = resolution_times s ++ map resolution_time (filter is_resolved l) /\
    first_response_met s'
    = first_response_met s + len (filter first_response_on_time l) /\
    resolution_met s'
    = resolution_met s + len (filter resolved_on_time l).
Proof.
  induction l as [|t l IH]; intro s; simpl.
  - rewrite !app_nil_r, len_nil. repeat split; lia.
  - destruct (IH (tally_ticket s t)) as [H1 [H2 [H3 H4]]].
    rewrite H1, H2, H3, H4. clear IH H1 H2 H3 H4.
    unfold tally_ticket, has_first_response, is_resolved,
      first_response_on_time, resolved_on_time, response_time, resolution_time.
    destruct (first_response_at t) as [a|] eqn:Ea,
             (resolved_at t) as [b|] eqn:Eb; simpl; rewrite ?Ea, ?Eb; simpl;
      repeat match goal with
             | |- context [leb ?x ?y] => destruct (leb x y); simpl
             end;
      rewrite ?len_cons, <- ?app_assoc; simpl;
      repeat split; try reflexivity; lia.
Qed.

(** The report on exact rationals: the figures in terms of the
    selections. *)
Lemma report_on_exact_rationals (db : list Ticket)
    (start_date end_date : datetime)
    (category_arg : option string) :
  let tickets := query_tickets db start_date end_date category_arg in
  exists r,
    generate_sla_report db start_date end_date category_arg = Returned r /\
    total_tickets r = len tickets /\
    avg_time_hours (first_response_sla r)
    = round2 (mean (map response_time (filter has_first_response tickets))) /\
    avg_time_hours (resolution_sla r)
    = round2 (mean (map resolution_time (filter is_resolved tickets))) /\
    tickets_met (first_response_sla r)
    = len (filter first_response_on_time tickets) /\
    tickets_met (resolution_sla r)
    = len (filter resolved_on_time tickets).
Proof.
  intro tickets. eexists. split; [reflexivity|].
  fold tickets.
  destruct (tally_fold tickets (mkTally 0 0 [] [])) as [H1 [H2 [H3 H4]]].
  simpl in H1, H2, H3, H4. simpl.
  rewrite H1, H2, H3, H4, !average_is_mean.
  repeat split.
Qed.

(** On the sample table: four tickets are selected, only ticket 3 has a
    first response (24 hours after creation, after its due instant), so
    the average is 24 while no ticket met the target. *)
Example report_sample :
  generate_sla_report sample_db monday_9 friday_9 None
  = Returned (mkReport monday_9 friday_9 4
                (mkFigures 0 0 24) (mkFigures 0 0 0)).
Proof. reflexivity. Qed.

(** * Further properties of the clock *)

Lemma clock_fields_sum (r : Z) :
  r / us_per_hour * us_per_hour
  + (r / us_per_minute) mod 60 * us_per_minute
  + (r / us_per_second) mod 60 * us_per_second
  + r mod us_per_second = r.
Proof.
  unfold us_per_hour, us_per_minute, us_per_second.
  Z.div_mod_to_equations. lia.
Qed.

Lemma to_us_mkdt (n a b c e : Z) :
  to_us (mkdt n a b c e)
  = n * us_per_day
    + (a * us_per_hour + b * us_per_minute + c * us_per_second + e).
Proof. reflexivity. Qed.

(** Addition is exact on the microsecond count. *)
Lemma to_us_add (d t : datetime) (td : Z) :
  add d td = Returned t -> to_us t = to_us d + td.
Proof.
  unfold add.
  destruct ((0 <? _) && _); [|discriminate].
  intro H. injection H as <-.
  rewrite to_us_mkdt, clock_fields_sum.
  pose proof (Z.div_mod (time_us d + td) us_per_day ltac:(discriminate)) as E.
  unfold to_us.
  set (T := time_us d + td) in *.
  set (q := T / us_per_day) in *. set (r := T mod us_per_day) in *.
  unfold us_per_day, us_per_hour, us_per_minute, us_per_second in *.
  lia.
Qed.

Lemma to_us_next_morning (d : datetime) :
  clock_ok d -> to_us d <= to_us (next_morning d).
Proof.
  intro Hc. apply time_us_range in Hc.
  unfold next_morning. rewrite to_us_mkdt. unfold to_us.
  unfold us_per_day, us_per_hour, us_per_minute, us_per_second in *. lia.
Qed.

Lemma to_us_snap (d : datetime) :
  clock_ok d -> hour d < 9 -> to_us d <= to_us (replace_hour d 9).
Proof.
  intros Hc H9. unfold clock_ok in Hc.
  unfold replace_hour. rewrite to_us_mkdt. unfold to_us, time_us.
  unfold us_per_day, us_per_hour, us_per_minute, us_per_second in *. lia.
Qed.

(** Where a pass that uses up the remaining hours lands. *)
Lemma finish_landing (d0 t : datetime) (td : Z) :
  well_formed d0 -> 9 <= hour d0 < 18 ->
  0 <= td <= (18 - hour d0) * us_per_hour - minute d0 * us_per_minute ->
  add d0 td = Returned t ->
  ordinal t = ordinal d0 /\ time_us t = time_us d0 + td /\ 9 <= hour t <= 18.
Proof.
  intros W Hh Htd Hadd.
  pose proof (to_us_add _ _ _ Hadd) as Hus.
  pose proof (well_formed_clock _ W) as Hc. unfold clock_ok in Hc.
  assert (R : 9 * us_per_hour <= time_us d0 + td < us_per_day).
  { unfold time_us, us_per_day, us_per_hour, us_per_minute, us_per_second in *.
    lia. }
  assert (R' : time_us d0 + td < 19 * us_per_hour).
  { unfold time_us, us_per_day, us_per_hour, us_per_minute, us_per_second in *.
    lia. }
  rewrite add_same_day in Hadd
    by (unfold us_per_hour, us_per_minute, us_per_second in *; lia).
  destruct ((0 <? ordinal d0) && _); [|discriminate].
  injection Hadd as <-. cbn [ordinal hour].
  split; [reflexivity|].
  split.
  - rewrite to_us_mkdt in Hus. unfold to_us in Hus.
    unfold time_us at 1. cbn [hour minute second microsecond]. lia.
  - split.
    + apply Z.div_le_lower_bound; [reflexivity|]. lia.
    + assert ((time_us d0 + td) / us_per_hour < 19); [|lia].
      apply Z.div_lt_upper_bound; [reflexivity|]. lia.
Qed.

Lemma consume_cases (d0 t' : datetime) (r r' : Q) :
  well_formed d0 -> hour d0 < 18 -> (0 < r)%Q ->
  consume d0 r = Returned (t', r') ->
  (t' = next_morning d0 /\ (0 < r')%Q /\ well_formed t') \/
  (r' = 0%Q /\ add d0 (timedelta_hours r) = Returned t' /\
   0 <= timedelta_hours r
     <= (18 - hour d0) * us_per_hour - minute d0 * us_per_minute).
Proof.
  intros W Hh Hr. unfold consume.
  set (hl := (inject_Z 18 - inject_Z (hour d0)
              - inject_Z (minute d0) / inject_Z 60)%Q).
  destruct (Qle_bool r hl) eqn:Hfit.
  - apply Qle_bool_iff in Hfit.
    destruct (add d0 (timedelta_hours r)) as [t|e] eqn:E; simpl; [|discriminate].
    intro H. injection H as <- <-. right.
    split; [reflexivity|]. split; [reflexivity|].
    split.
    + apply round_half_even_nonneg.
      apply Qmult_le_0_compat; [apply Qlt_le_weak, Hr|discriminate].
    + apply round_half_even_le, hours_to_us, Hfit.
  - intro H. apply day_step in H; [|apply well_formed_clock, W].
    destruct H as [-> [-> W']]. left.
    split; [reflexivity|]. split; [|exact W'].
    assert (L : (hl < r)%Q).
    { apply Qnot_le_lt. intro L. apply Qle_bool_iff in L. congruence. }
    lra.
Qed.

(** The two ways a pass can end: at 09:00 of the next calendar day with
    hours still to place, or inside a working day with none left. *)
Lemma loop_body_cases (d t' : datetime) (r r' : Q) :
  well_formed d -> (0 < r)%Q ->
  loop_body d r = Returned (t', r') ->
  (t' = next_morning d /\ (0 < r')%Q /\ well_formed t') \/
  (r' = 0%Q /\ weekday d < 5 /\
   exists d0,
     (d0 = d \/ (hour d < 9 /\ d0 = replace_hour d 9)) /\
     well_formed d0 /\ 9 <= hour d0 < 18 /\
     add d0 (timedelta_hours r) = Returned t' /\
     0 <= timedelta_hours r
       <= (18 - hour d0) * us_per_hour - minute d0 * us_per_minute).
Proof.
  intros W Hr. pose proof (well_formed_clock d W) as Hc.
  unfold loop_body.
  destruct (5 <=? weekday d) eqn:Hw.
  - intro H. apply day_step in H; [|exact Hc].
    destruct H as [-> [-> W']]. left.
    split; [reflexivity|]. split; assumption.
  - apply Z.leb_gt in Hw.
    destruct (hour d <? 9) eqn:H9.
    + apply Z.ltb_lt in H9.
      assert (W9 : well_formed (replace_hour d 9)).
      { unfold well_formed in *. simpl. lia. }
      intro H. apply consume_cases in H; [|exact W9|simpl; lia|exact Hr].
      destruct H as [[-> [Hr' W']]|[-> [Ha Hb]]].
      * left. split; [reflexivity|]. split; assumption.
      * right. split; [reflexivity|]. split; [exact Hw|].
        exists (replace_hour d 9).
        split; [right; split; [exact H9|reflexivity]|].
        split; [exact W9|]. split; [simpl; lia|]. split; assumption.
    + apply Z.ltb_ge in H9.
      destruct (18 <=? hour d) eqn:H18.
      * intro H. apply day_step in H; [|exact Hc].
        destruct H as [-> [-> W']]. left.
    split; [reflexivity|]. split; assumption.
      * apply Z.leb_gt in H18.
        intro H. apply consume_cases in H; [|exact W|exact H18|exact Hr].
        destruct H as [[-> [Hr' W']]|[-> [Ha Hb]]].
        -- left. split; [reflexivity|]. split; assumption.
        -- right. split; [reflexivity|]. split; [exact Hw|].
           exists d. split; [left; reflexivity|].
           split; [exact W|]. split; [lia|]. split; assumption.
Qed.

Lemma while_loop_not_before (fuel : nat) :
  forall d r t,
    well_formed d ->
    while_loop fuel d r = Some (Returned t) ->
    to_us d <= to_us t.
Proof.
  induction fuel as [|fuel IH]; intros d r t W; [discriminate|].
  rewrite while_loop_unfold.
  destruct (Qlt_bool 0 r) eqn:Hr.
  2:{ intro H. injection H as <-. lia. }
  apply Qlt_bool_iff in Hr.
  pose proof (well_formed_clock d W) as Hc.
  destruct (loop_body d r) as [[t' r']|e] eqn:E; [|discriminate].
  apply loop_body_cases in E; [|exact W|exact Hr].
  destruct E as [[-> [Hr' W']]|[-> [_ [d0 [Hd0 [W0 [_ [Hadd [Htd _]]]]]]]]].
  - intro H. apply IH in H; [|exact W'].
    pose proof (to_us_next_morning d Hc). lia.
  - intro H. apply while_loop_done in H. injection H as <-.
    apply to_us_add in Hadd.
    destruct Hd0 as [->|[H9 ->]]; [lia|].
    pose proof (to_us_snap d Hc H9). lia.
Qed.

(** The instant returned is never before the start instant. *)
Theorem add_business_hours_not_before_start (start_time t : datetime) (hours : Q) :
  well_formed start_time ->
  add_business_hours start_time hours = Some (Returned t) ->
  to_us start_time <= to_us t.
Proof.
  intros W H. eapply while_loop_not_before; [exact W|exact H].
Qed.

(** A Friday evening near the end of the date range and the Monday that
    follows it. *)
Definition late_friday_19 : datetime := mkdt 3652045 19 15 0 0.
Definition late_monday_9 : datetime := mkdt 3652048 9 0 0 0.
Definition late_monday_1230 : datetime := mkdt 3652048 12 30 0 0.

Lemma late_friday_well_formed : well_formed late_friday_19.
Proof. unfold well_formed, late_friday_19, MAXORDINAL; simpl; lia. Defined.

Lemma late_friday_run :
  add_business_hours late_friday_19 (7 # 2) = Some (Returned late_monday_1230).
Proof. vm_compute. reflexivity. Defined.

Lemma add_business_hours_not_before_start_witness :
  to_us late_friday_19 <= to_us late_monday_1230.
Proof.
  apply (add_business_hours_not_before_start
           late_friday_19 late_monday_1230 (7 # 2)).
  - exact late_friday_well_formed.
  - exact late_friday_run.
Defined.

Lemma while_loop_lands (fuel : nat) :
  forall d r t,
    well_formed d -> (0 < r)%Q ->
    while_loop fuel d r = Some (Returned t) ->
    weekday t < 5 /\ 9 <= hour t <= 18 /\
    9 * us_per_hour <= time_us t < 18 * us_per_hour + us_per_minute.
Proof.
  induction fuel as [|fuel IH]; intros d r t W Hr; [discriminate|].
  rewrite while_loop_unfold.
  replace (Qlt_bool 0 r) with true by (symmetry; apply Qlt_bool_iff, Hr).
  destruct (loop_body d r) as [[t' r']|e] eqn:E; [|discriminate].
  apply loop_body_cases in E; [|exact W|exact Hr].
  destruct E as [[-> [Hr' W']]|[-> [Hw [d0 [Hd0 [W0 [Hh [Hadd Htd]]]]]]]].
  - apply IH; assumption.
  - intro H. apply while_loop_done in H. injection H as ->.
    destruct (finish_landing d0 t' _ W0 Hh Htd Hadd) as [Ho [Ht Hhour]].
    assert (Hsame : ordinal d0 = ordinal d)
      by (destruct Hd0 as [->|[_ ->]]; reflexivity).
    split; [unfold weekday in *; rewrite Ho, Hsame; exact Hw|].
    split; [exact Hhour|].
    pose proof (well_formed_clock _ W0) as Hc. unfold clock_ok in Hc.
    rewrite Ht. unfold time_us.
    unfold us_per_hour, us_per_minute, us_per_second in *. lia.
Qed.

(** With a positive duration the instant returned lies on a working day,
    at or after 09:00 and less than one minute after 18:00: the seconds of
    the instant the last pass starts from are not counted in the hours
    left, so the result may pass 18:00 by up to 59.999999 s. *)
Theorem add_business_hours_lands_in_working_time
    (start_time t : datetime) (hours : Q) :
  well_formed start_time -> (0 < hours)%Q ->
  add_business_hours start_time hours = Some (Returned t) ->
  weekday t < 5 /\ 9 <= hour t <= 18 /\
  9 * us_per_hour <= time_us t < 18 * us_per_hour + us_per_minute.
Proof.
  intros W Hr H. eapply while_loop_lands; [exact W|exact Hr|exact H].
Qed.

Lemma add_business_hours_lands_in_working_time_witness :
  weekday late_monday_1230 < 5 /\ 9 <= hour late_monday_1230 <= 18 /\
  9 * us_per_hour <= time_us late_monday_1230
    < 18 * us_per_hour + us_per_minute.
Proof.
  apply (add_business_hours_lands_in_working_time
           late_friday_19 late_monday_1230 (7 # 2)).
  - exact late_friday_well_formed.
  - reflexivity.
  - exact late_friday_run.
Defined.

(** The bound after 18:00 is reached: one business minute added at
    17:59:30 ends at 18:00:30. *)
Example lands_after_closing :
  add_business_hours (mkdt 3652048 17 59 30 0) (1 # 60)
  = Some (Returned (mkdt 3652048 18 0 30 0)).
Proof. vm_compute. reflexivity. Qed.

Lemma passes_next_morning (d : datetime) :
  ordinal d < MAXORDINAL ->
  passes d = S (passes (next_morning d)).
Proof.
  intro H. unfold passes, next_morning. cbn [ordinal].
  replace (MAXORDINAL - ordinal d) with (Z.succ (MAXORDINAL - (ordinal d + 1)))
    by lia.
  rewrite Z2Nat.inj_succ by lia. reflexivity.
Qed.

(** Time before 09:00 on a working day does not count: with a positive
    duration, a start before 09:00 gives the result of a start at 09:00 of
    the same day. *)
Theorem early_start_counts_from_nine (d : datetime) (hours : Q) :
  weekday d < 5 -> hour d < 9 -> (0 < hours)%Q ->
  add_business_hours d hours = add_business_hours (replace_hour d 9) hours.
Proof.
  intros Hw H9 Hr.
  unfold add_business_hours, passes. cbn [replace_hour ordinal].
  rewrite !while_loop_unfold.
  replace (Qlt_bool 0 hours) with true by (symmetry; apply Qlt_bool_iff, Hr).
  assert (E : loop_body d hours = loop_body (mkdt (ordinal d) 9 0 0 0) hours).
  { unfold loop_body, weekday in *. cbn [ordinal hour].
    replace (5 <=? (ordinal d + 6) mod 7) with false
      by (symmetry; apply Z.leb_gt, Hw).
    replace (hour d <? 9) with true by (symmetry; apply Z.ltb_lt, H9).
    reflexivity. }
  rewrite E. reflexivity.
Qed.

Definition early_monday : datetime := mkdt 3652048 6 45 12 0.

Lemma early_start_counts_from_nine_witness :
  add_business_hours early_monday (7 # 2)
  = add_business_hours (replace_hour early_monday 9) (7 # 2).
Proof.
  apply (early_start_counts_from_nine early_monday (7 # 2));
    reflexivity.
Defined.

(** Time on a weekend day or after 18:00 does not count either: with a
    positive duration, such a start gives the result of a start at 09:00 of
    the next calendar day (which is examined in turn). *)
Theorem off_hours_start_counts_from_next_morning (d : datetime) (hours : Q) :
  well_formed d -> ordinal d < MAXORDINAL ->
  5 <= weekday d \/ 18 <= hour d ->
  (0 < hours)%Q ->
  add_business_hours d hours = add_business_hours (next_morning d) hours.
Proof.
  intros W Hmax Hoff Hr.
  pose proof (well_formed_clock d W) as Hc.
  assert (Hord : 1 <= ordinal d) by (destruct W as [[? ?] _]; assumption).
  unfold add_business_hours.
  rewrite (passes_next_morning d Hmax), while_loop_unfold.
  replace (Qlt_bool 0 hours) with true by (symmetry; apply Qlt_bool_iff, Hr).
  assert (E : loop_body d hours = Returned (next_morning d, hours)).
  { unfold loop_body.
    destruct (5 <=? weekday d) eqn:Hw.
    - rewrite add_one_day by exact Hc.
      rewrite in_range_true by lia. reflexivity.
    - apply Z.leb_gt in Hw.
      assert (H18 : 18 <= hour d) by (destruct Hoff; [lia|assumption]).
      replace (hour d <? 9) with false by (symmetry; apply Z.ltb_ge; lia).
      replace (18 <=? hour d) with true by (symmetry; apply Z.leb_le, H18).
      rewrite add_one_day by exact Hc.
      rewrite in_range_true by lia. reflexivity. }
  rewrite E. reflexivity.
Qed.

Lemma off_hours_start_counts_from_next_morning_witness :
  add_business_hours late_friday_19 (7 # 2)
  = add_business_hours (next_morning late_friday_19) (7 # 2).
Proof.
  apply (off_hours_start_counts_from_next_morning late_friday_19 (7 # 2)).
  - exact late_friday_well_formed.
  - reflexivity.
  - right. discriminate.
  - reflexivity.
Defined.

(** Past the last day of the date range there is no next morning: a
    positive duration asked for on a weekend day or after 18:00 of
    9999-12-31 ends in [OverflowError]. *)
Theorem off_hours_start_on_last_day_overflows (d : datetime) (hours : Q) :
  well_formed d -> ordinal d = MAXORDINAL ->
  5 <= weekday d \/ 18 <= hour d ->
  (0 < hours)%Q ->
  add_business_hours d hours = Some (Raised OverflowError).
Proof.
  intros W Hmax Hoff Hr.
  pose proof (well_formed_clock d W) as Hc.
  unfold add_business_hours, passes. rewrite while_loop_unfold.
  replace (Qlt_bool 0 hours) with true by (symmetry; apply Qlt_bool_iff, Hr).
  assert (R : (0 <? ordinal d + 1) && (ordinal d + 1 <=? MAXORDINAL) = false).
  { apply andb_false_iff. right. apply Z.leb_gt. lia. }
  assert (E : loop_body d hours = Raised OverflowError).
  { unfold loop_body.
    destruct (5 <=? weekday d) eqn:Hw.
    - rewrite add_one_day by exact Hc. rewrite R. reflexivity.
    - apply Z.leb_gt in Hw.
      assert (H18 : 18 <= hour d) by (destruct Hoff; [lia|assumption]).
      replace (hour d <? 9) with false by (symmetry; apply Z.ltb_ge; lia).
      replace (18 <=? hour d) with true by (symmetry; apply Z.leb_le, H18).
      rewrite add_one_day by exact Hc. rewrite R. reflexivity. }
  rewrite E. reflexivity.
Qed.

Lemma off_hours_start_on_last_day_overflows_witness :
  add_business_hours (mkdt 3652059 18 0 0 0) (1 # 4)
  = Some (Raised OverflowError).
Proof.
  apply (off_hours_start_on_last_day_overflows (mkdt 3652059 18 0 0 0) (1 # 4)).
  - unfold well_formed, MAXORDINAL; simpl; lia.
  - reflexivity.
  - right. discriminate.
  - reflexivity.
Defined.

(** * Further properties of the breach scan *)

Lemma first_response_filter_later (now now' : datetime) (t : Ticket) :
  to_us now <= to_us now' ->
  first_response_filter now t = true -> first_response_filter now' t = true.
Proof.
  intros Hle H.
  apply first_response_filter_iff in H. apply first_response_filter_iff.
  unfold first_response_breached, past in *.
  destruct H as [H1 [H2 H3]]. repeat split; try assumption. lia.
Qed.

Lemma resolution_filter_later (now now' : datetime) (t : Ticket) :
  to_us now <= to_us now' ->
  resolution_filter now t = true -> resolution_filter now' t = true.
Proof.
  intros Hle H.
  apply resolution_filter_iff in H. apply resolution_filter_iff.
  unfold resolution_breached, past in *.
  destruct H as [H1 [H2 H3]]. repeat split; try assumption. lia.
Qed.

(** A breach does not go away by waiting: on the same table, every record
    of a scan has a record for the same ticket and of the same type in any
    later scan, with the same priority and tier. *)
Theorem breaches_persist (db : list Ticket) (now now' : datetime)
    (r : BreachRecord) :
  to_us now <= to_us now' ->
  In r (check_sla_breaches db now) ->
  exists r',
    In r' (check_sla_breaches db now') /\
    ticket_id r' = ticket_id r /\ breach_type r' = breach_type r /\
    breach_priority r' = breach_priority r /\
    customer_tier r' = customer_tier r.
Proof.
  intros Hle Hin.
  rewrite check_sla_breaches_eq in Hin. rewrite check_sla_breaches_eq.
  apply in_app_or in Hin. destruct Hin as [Hin|Hin];
    apply in_map_iff in Hin; destruct Hin as [t [<- Ht]];
    apply filter_In in Ht; destruct Ht as [Hdb Hp].
  - exists (first_response_record now' t). split.
    + apply in_or_app. left. apply in_map. apply filter_In.
      split; [exact Hdb|]. eapply first_response_filter_later; eassumption.
    + repeat split.
  - exists (resolution_record now' t). split.
    + apply in_or_app. right. apply in_map. apply filter_In.
      split; [exact Hdb|]. eapply resolution_filter_later; eassumption.
    + repeat split.
Qed.

Lemma breaches_persist_witness :
  exists r',
    In r' (check_sla_breaches sample_db friday_9) /\
    ticket_id r' = 3 /\ breach_type r' = "resolution"%string /\
    breach_priority r' = "medium"%string /\
    customer_tier r' = "standard"%string.
Proof.
  apply (breaches_persist sample_db thursday_noon friday_9
           (mkBreach 3 "resolution" "1 day, 21:30:00" "medium" "standard")).
  - vm_compute. discriminate.
  - right. right. left. reflexivity.
Defined.

(** * Further properties of the report *)

Lemma round_half_even_exact (q : Q) (z : Z) :
  (q == inject_Z z)%Q -> round_half_even q = z.
Proof.
  destruct q as [n d]. unfold Qeq, round_half_even; cbn [Qnum Qden inject_Z].
  intro H. rewrite Z.mul_1_r in H. subst n.
  rewrite Z.div_mul by discriminate.
  rewrite Z.mod_mul by discriminate.
  reflexivity.
Qed.

Lemma round2_range (x : Q) :
  (0 <= x)%Q -> (x <= 100)%Q -> (0 <= round2 x)%Q /\ (round2 x <= 100)%Q.
Proof.
  intros H0 H100. unfold round2.
  assert (L : 0 <= round_half_even (x * inject_Z 100)).
  { apply round_half_even_nonneg.
    apply Qmult_le_0_compat; [exact H0|discriminate]. }
  assert (U : round_half_even (x * inject_Z 100) <= 10000).
  { apply round_half_even_le.
    change (inject_Z 10000) with (100 * inject_Z 100)%Q.
    apply Qmult_le_compat_r; [exact H100|discriminate]. }
  rewrite Qred_correct.
  unfold Qle; cbn [Qnum Qden]. lia.
Qed.

Lemma compliance_range (met total : Z) :
  0 <= met <= total ->
  (0 <= compliance met total)%Q /\ (compliance met total <= 100)%Q.
Proof.
  intros H. unfold compliance.
  destruct (0 <? total) eqn:E; [|split; discriminate].
  apply Z.ltb_lt in E.
  destruct total as [|p|p]; try lia.
  unfold Qle, Qdiv, Qmult, Qinv; cbn [Qnum Qden inject_Z]. lia.
Qed.

Lemma len_filter_le {A : Type} (p : A -> bool) (l : list A) :
  0 <= len (filter p l) <= len l.
Proof.
  unfold len. pose proof (filter_length_le p l). lia.
Qed.

(** The figures of every report are in range: a met-count is between 0 and
    [total_tickets], and a compliance rate between 0 and 100. *)
Theorem report_figures_in_range (db : list Ticket)
    (start_date end_date : datetime) (category_arg : option string) :
  exists r,
    generate_sla_report db start_date end_date category_arg = Returned r /\
    0 <= tickets_met (first_response_sla r) <= total_tickets r /\
    0 <= tickets_met (resolution_sla r) <= total_tickets r /\
    (0 <= compliance_rate (first_response_sla r))%Q /\
    (compliance_rate (first_response_sla r) <= 100)%Q /\
    (0 <= compliance_rate (resolution_sla r))%Q /\
    (compliance_rate (resolution_sla r) <= 100)%Q.
Proof.
  eexists. split; [reflexivity|].
  set (tickets := query_tickets db start_date end_date category_arg).
  destruct (tally_fold tickets (mkTally 0 0 [] [])) as [_ [_ [H3 H4]]].
  cbn [first_response_met resolution_met] in H3, H4.
  cbn [tickets_met total_tickets compliance_rate first_response_sla resolution_sla].
  fold tickets. rewrite H3, H4, !Z.add_0_l.
  pose proof (len_filter_le first_response_on_time tickets) as B1.
  pose proof (len_filter_le resolved_on_time tickets) as B2.
  destruct (compliance_range _ _ B1) as [C1 C2].
  destruct (compliance_range _ _ B2) as [C3 C4].
  destruct (round2_range _ C1 C2). destruct (round2_range _ C3 C4).
  repeat split; tauto.
Qed.

Lemma filter_all {A : Type} (p : A -> bool) (l : list A) :
  (forall x, In x l -> p x = true) -> filter p l = l.
Proof.
  induction l as [|x l IH]; intro H; simpl; [reflexivity|].
  rewrite (H x (or_introl eq_refl)). f_equal.
  apply IH. intros y Hy. apply H. right. exact Hy.
Qed.

Lemma full_rate (n : Z) : 0 < n -> round2 (compliance n n) = 100%Q.
Proof.
  intro H. unfold compliance, round2.
  replace (0 <? n) with true by (symmetry; apply Z.ltb_lt, H).
  rewrite (round_half_even_exact _ 10000); [reflexivity|].
  destruct n as [|p|p]; try lia.
  unfold Qeq, Qdiv, Qmult, Qinv; cbn [Qnum Qden inject_Z]. lia.
Qed.

(** If at least one ticket is selected and every selected ticket was
    answered by its first-response due instant, the first-response
    compliance rate is exactly 100 and the met-count is the total. *)
Theorem all_on_time_is_full_compliance (db : list Ticket)
    (start_date end_date : datetime) (category_arg : option string) :
  query_tickets db start_date end_date category_arg <> [] ->
  (forall t, In t (query_tickets db start_date end_date category_arg) ->
             first_response_on_time t = true) ->
  exists r,
    generate_sla_report db start_date end_date category_arg = Returned r /\
    compliance_rate (first_response_sla r) = 100%Q /\
    tickets_met (first_response_sla r) = total_tickets r.
Proof.
  intros Hne Hall. eexists. split; [reflexivity|].
  set (tickets := query_tickets db start_date end_date category_arg) in *.
  destruct (tally_fold tickets (mkTally 0 0 [] [])) as [_ [_ [H3 _]]].
  cbn [first_response_met] in H3.
  cbn [tickets_met total_tickets compliance_rate first_response_sla].
  fold tickets. rewrite H3, Z.add_0_l, (filter_all _ _ Hall).
  split; [|reflexivity].
  apply full_rate.
  destruct tickets as [|t l]; [contradiction|]. rewrite len_cons.
  pose proof (len_filter_le (fun _ : Ticket => true) l). lia.
Qed.

Definition ticket_5 : Ticket :=
  mkTicket 5 (Some "resolved"%string) "low" "billing" monday_9 (Some monday_13) (Some tuesday_9)
           monday_13 tuesday_15 None.
Definition ticket_6 : Ticket :=
  mkTicket 6 (Some "in_progress"%string) "high" "billing" monday_13 (Some tuesday_9) None
           tuesday_15 friday_9 None.

Lemma all_on_time_is_full_compliance_witness :
  exists r,
    generate_sla_report [ticket_5; ticket_4; ticket_6] monday_9 friday_9
      (Some "billing"%string) = Returned r /\
    compliance_rate (first_response_sla r) = 100%Q /\
    tickets_met (first_response_sla r) = total_tickets r.
Proof.
  apply (all_on_time_is_full_compliance [ticket_5; ticket_4; ticket_6]
           monday_9 friday_9 (Some "billing"%string)).
  - discriminate.
  - intros t [<-|[<-|[]]]; reflexivity.
Defined.

(** A ticket outside the selection has no effect on the report: one
    created before [start_date] or after [end_date], or (when a non-empty
    category is given) one of another category, can be added to or removed
    from the table without changing the result. *)
Theorem unselected_ticket_is_ignored (db1 db2 : list Ticket) (t : Ticket)
    (start_date end_date : datetime) (category_arg : option string) :
  to_us (created_at t) < to_us start_date \/
  to_us end_date < to_us (created_at t) \/
  (exists c, category_arg = Some c /\ c <> EmptyString /\ category t <> c) ->
  generate_sla_report (db1 ++ t :: db2) start_date end_date category_arg
  = generate_sla_report (db1 ++ db2) start_date end_date category_arg.
Proof.
  intro H.
  assert (E : query_tickets (db1 ++ t :: db2) start_date end_date category_arg
              = query_tickets (db1 ++ db2) start_date end_date category_arg).
  { unfold query_tickets. rewrite !filter_app. simpl.
    destruct (leb start_date (created_at t) && leb (created_at t) end_date)
      eqn:W.
    - apply andb_true_iff in W. destruct W as [W1 W2].
      unfold leb in W1, W2. apply Z.leb_le in W1, W2.
      destruct H as [H|[H|[c [-> [Hc Hne]]]]]; [lia|lia|].
      destruct c as [|a c]; [contradiction|]. cbn [truthy].
      rewrite !filter_app. simpl.
      destruct (String.eqb_spec (category t) (String a c)); [contradiction|].
      reflexivity.
    - reflexivity. }
  unfold generate_sla_report. rewrite E. reflexivity.
Qed.

Lemma unselected_ticket_is_ignored_witness :
  generate_sla_report ([ticket_5] ++ ticket_4 :: [ticket_6]) monday_9 friday_9
    (Some "billing"%string)
  = generate_sla_report ([ticket_5] ++ [ticket_6]) monday_9 friday_9
      (Some "billing"%string).
Proof.
  apply (unselected_ticket_is_ignored [ticket_5] [ticket_6] ticket_4
           monday_9 friday_9 (Some "billing"%string)).
  right. right. exists "billing"%string.
  split; [reflexivity|]. split; discriminate.
Defined.

(** * The API layer (main.py) *)

Module Main.

Inductive error : Type :=
| ValueError
| IndexError
| NameError (name : string)
| HTTPException (status_code : Z) (detail : string).

Inductive attempt (A : Type) : Type :=
| Ok (a : A)
| Err (e : error).
Arguments Ok {A} a.
Arguments Err {A} e.

Definition and_then {A B : Type} (x : attempt A) (k : A -> attempt B)
  : attempt B :=
  match x with
  | Ok a => k a
  | Err e => Err e
  end.

Definition priority_levels : list string :=
  ["low"; "medium"; "high"; "critical"; "emergency"]%string.

(** [l.index(x)]: the first position of [x]; [None] stands for the
    [ValueError] of an absent element. *)
Fixpoint index (x : string) (l : list string) : option nat :=
  match l with
  | [] => None
  | y :: l' =>
      if String.eqb y x then Some O
      else match index x l' with
           | Some i => Some (S i)
           | None => None
           end
  end.

Definition escalate_priority (current_priority : string) : attempt string :=
  match index current_priority priority_levels with
  | None => Err ValueError
  | Some current_index =>
      if Z.of_nat current_index <? len priority_levels - 1 then
        match nth_error priority_levels (current_index + 1) with
        | Some p => Ok p
        | None => Err IndexError
        end
      else Ok current_priority
  end.

(** A row of the ticket table as the API handlers see it: the columns of
    [Ticket] above, the assigned agent and the update stamp. *)
Record TicketRow : Type := mkRow {
  ticket : Ticket;
  assigned_to : option Z;
  updated_at : option datetime
}.

(** [if n:] for an optional integer: false for [None] and for 0. *)
Definition truthy_int (n : option Z) : option Z :=
  match n with
  | Some 0 => None
  | n' => n'
  end.

(** [query.filter(column == value)] when the argument is truthy. *)
Definition filter_text (arg : option string) (column : TicketRow -> string)
    (query : list TicketRow) : list TicketRow :=
  match truthy arg with
  | Some v => filter (fun r => String.eqb (column r) v) query
  | None => query
  end.

(** The same on the nullable [status] column: a NULL never equals. *)
Definition filter_status (arg : option string) (query : list TicketRow)
  : list TicketRow :=
  match truthy arg with
  | Some v => filter (fun r => match status (ticket r) with
                               | Some c => String.eqb c v
                               | None => false
                               end) query
  | None => query
  end.

Definition filter_agent (arg : option Z) (query : list TicketRow)
  : list TicketRow :=
  match truthy_int arg with
  | Some v => filter (fun r => match assigned_to r with
                               | Some a => a =? v
                               | None => false
                               end) query
  | None => query
  end.

(** [(due1 < now) & (at1 IS NULL) | (due2 < now) & (at2 IS NULL)]; [&]
    binds tighter than [|]. *)
Definition overdue (current_time : datetime) (r : TicketRow) : bool :=
  ltb (first_response_due (ticket r)) current_time
  && is_null (first_response_at (ticket r))
  || ltb (resolution_due (ticket r)) current_time
     && is_null (resolved_at (ticket r)).

(** [get_tickets]; [skip] and [limit] are taken non-negative, and
    [current_time] is the clock value read when [sla_breach is True]. *)
Definition get_tickets (db : list TicketRow)
    (status_arg priority_arg category_arg : option string)
    (assigned_to_arg : option Z) (sla_breach : option bool)
    (skip limit : nat) (current_time : datetime) : list TicketRow :=
  let query := db in
  let query := filter_status status_arg query in
  let query := filter_text priority_arg (fun r => priority (ticket r)) query in
  let query := filter_text category_arg (fun r => category (ticket r)) query in
  let query := filter_agent assigned_to_arg query in
  let query :=
    match sla_breach with
    | Some true => filter (overdue current_time) query
    | _ => query
    end in
  firstn limit (skipn skip query).

Definition with_first_response_at (t : Ticket) (v : option datetime) : Ticket :=
  mkTicket (id t) (status t) (priority t) (category t) (created_at t)
           v (resolved_at t) (first_response_due t) (resolution_due t)
           (customer t).

Definition with_resolved_at (t : Ticket) (v : option datetime) : Ticket :=
  mkTicket (id t) (status t) (priority t) (category t) (created_at t)
           (first_response_at t) v (first_response_due t) (resolution_due t)
           (customer t).

(** [s != original_status], where the original status may be [None]. *)
Definition differs (s : string) (original_status : option string) : bool :=
  match original_status with
  | Some o => negb (String.eqb s o)
  | None => true
  end.

(** "Track status changes and SLA compliance": the stamps set when the
    update carries a status different from the original one. *)
Definition track_status (update_status : option string)
    (original_status : option string) (db_ticket : Ticket) (utcnow : datetime)
  : Ticket :=
  match truthy update_status with
  | Some s =>
      if differs s original_status then
        if String.eqb s "in_progress" && is_null (first_response_at db_ticket)
        then with_first_response_at db_ticket (Some utcnow)
        else if String.eqb s "resolved"
        then with_resolved_at db_ticket (Some utcnow)
        else db_ticket
      else db_ticket
  | None => db_ticket
  end.

(** [db.query(Ticket).filter(Ticket.id == ticket_id).first()] *)
Fixpoint first_with_id (ticket_id : Z) (db : list TicketRow)
  : option TicketRow :=
  match db with
  | [] => None
  | r :: db' =>
      if id (ticket r) =? ticket_id then Some r else first_with_id ticket_id db'
  end.

(** The table after the commit: the row that was fetched is replaced by
    its updated state. *)
Fixpoint store (ticket_id : Z) (new : TicketRow) (db : list TicketRow)
  : list TicketRow :=
  match db with
  | [] => []
  | r :: db' =>
      if id (ticket r) =? ticket_id then new :: db'
      else r :: store ticket_id new db'
  end.

Section UpdateTicket.

(** The schema [TicketUpdate] is declared outside the files at hand: its
    type, its [status] attribute and the effect of the loop
    [for field, value in ticket_update.dict(exclude_unset=True).items():
    setattr(db_ticket, field, value)] are parameters. *)
Variable TicketUpdate : Type.
Variable update_status : TicketUpdate -> option string.
Variable set_fields : TicketUpdate -> TicketRow -> TicketRow.

(** The state of the fetched row when [db.commit()] runs. *)
Definition committed_row (db_ticket : TicketRow) (ticket_update : TicketUpdate)
    (stamp_time update_time : datetime) : TicketRow :=
  let original_status := status (ticket db_ticket) in
  let db_ticket := set_fields ticket_update db_ticket in
  let db_ticket :=
    mkRow (track_status (update_status ticket_update) original_status
                        (ticket db_ticket) stamp_time)
          (assigned_to db_ticket) (updated_at db_ticket) in
  mkRow (ticket db_ticket) (assigned_to db_ticket) (Some update_time).

(** [update_ticket]: the table after the call and how the call ends.
    [stamp_time] and [update_time] are the two clock values read (for the
    SLA stamp and for [updated_at]).  After the commit the handler
    evaluates [update_sla_metrics], a name that main.py neither defines nor
    imports: the call ends in [NameError] and [return db_ticket] is not
    reached. *)
Definition update_ticket (db : list TicketRow) (ticket_id : Z)
    (ticket_update : TicketUpdate) (stamp_time update_time : datetime)
  : list TicketRow * attempt TicketRow :=
  match first_with_id ticket_id db with
  | None => (db, Err (HTTPException 404 "Ticket not found"))
  | Some db_ticket =>
      let db_ticket :=
        committed_row db_ticket ticket_update stamp_time update_time in
      (store ticket_id db_ticket db, Err (NameError "update_sla_metrics"))
  end.

End UpdateTicket.

End Main.
Import Main.

(** ** Priority escalation *)

Lemma index_none (x : string) (l : list string) :
  index x l = None <-> ~ In x l.
Proof.
  induction l as [|y l IH]; simpl.
  - split; [intros _ []|reflexivity].
  - destruct (String.eqb_spec y x) as [->|N].
    + split; [discriminate|]. intro H. exfalso. apply H. left. reflexivity.
    + destruct (index x l) as [i|].
      * split; [discriminate|]. intro H. exfalso.
        assert (K : ~ In x l) by (intro; apply H; right; assumption).
        apply IH in K. discriminate.
      * split; [|reflexivity]. intros _ [E|E]; [contradiction|].
        destruct IH as [IH _]. apply (IH eq_refl), E.
Qed.

Lemma known_priority (p : string) :
  In p priority_levels ->
  p = "low"%string \/ p = "medium"%string \/ p = "high"%string \/
  p = "critical"%string \/ p = "emergency"%string.
Proof.
  unfold priority_levels. simpl. intuition.
Qed.

(** [escalate_priority] fails exactly on a priority that is not one of the
    five levels, with the [ValueError] of [list.index]; on a level it
    returns a level.  It never fails in another way. *)
Theorem escalate_priority_unknown_level (p : string) :
  (escalate_priority p = Err ValueError <-> ~ In p priority_levels) /\
  ((exists q, escalate_priority p = Ok q /\ In q priority_levels)
   <-> In p priority_levels).
Proof.
  split; split.
  - intros H Hin. apply known_priority in Hin.
    destruct Hin as [-> | [-> | [-> | [-> | ->]]]]; discriminate H.
  - intro H. apply index_none in H. unfold escalate_priority.
    rewrite H. reflexivity.
  - intros [q [H _]] . 
    destruct (index p priority_levels) as [i|] eqn:E.
    + destruct (in_dec string_dec p priority_levels) as [K|K]; [exact K|].
      apply index_none in K. congruence.
    + unfold escalate_priority in H. rewrite E in H. discriminate.
  - intro Hin. apply known_priority in Hin.
    destruct Hin as [-> | [-> | [-> | [-> | ->]]]]; eexists;
      (split; [reflexivity|unfold priority_levels; simpl; tauto]).
Qed.

(** On a level, the result is the next level up, and the top level
    ("emergency") is returned unchanged: the rank goes from [i] to
    [min (i + 1) 4]. *)
Theorem escalate_priority_one_level_up (p : string) (i : nat) :
  index p priority_levels = Some i ->
  exists q,
    escalate_priority p = Ok q /\
    index q priority_levels = Some (Nat.min (S i) 4).
Proof.
  intro H.
  assert (Hin : In p priority_levels).
  { destruct (in_dec string_dec p priority_levels) as [K|K]; [exact K|].
    apply index_none in K. congruence. }
  apply known_priority in Hin.
  destruct Hin as [-> | [-> | [-> | [-> | ->]]]];
    injection H as <-; eexists; split; reflexivity.
Qed.

Lemma escalate_priority_one_level_up_witness :
  exists q,
    escalate_priority "high" = Ok q /\
    index q priority_levels = Some (Nat.min 3 4).
Proof.
  apply (escalate_priority_one_level_up "high" 2). reflexivity.
Defined.

(** [n] escalations in a row. *)
Fixpoint escalate_times (n : nat) (p : string) : attempt string :=
  match n with
  | O => Ok p
  | S n' => and_then (escalate_priority p) (escalate_times n')
  end.

Lemma emergency_stays (n : nat) :
  escalate_times n "emergency" = Ok "emergency"%string.
Proof. induction n as [|n IH]; [reflexivity|exact IH]. Qed.

(** From any level, four escalations or more end at "emergency". *)
Theorem escalation_saturates (p : string) (n : nat) :
  In p priority_levels -> (4 <= n)%nat ->
  escalate_times n p = Ok "emergency"%string.
Proof.
  intros Hin Hn.
  do 4 (destruct n as [|n]; [lia|]). clear Hn.
  apply known_priority in Hin.
  destruct Hin as [-> | [-> | [-> | [-> | ->]]]];
    exact (emergency_stays n) || exact (emergency_stays (S n))
    || exact (emergency_stays (S (S n)))
    || exact (emergency_stays (S (S (S n))))
    || exact (emergency_stays (S (S (S (S n))))).
Qed.

Lemma escalation_saturates_witness :
  escalate_times 6 "medium" = Ok "emergency"%string.
Proof.
  apply (escalation_saturates "medium" 6).
  - right. left. reflexivity.
  - lia.
Defined.

(** ** Ticket listing *)

Lemma in_page {A : Type} (x : A) (a b : nat) :
  forall l : list A, In x (firstn b (skipn a l)) -> In x l.
Proof.
  intros l H.
  rewrite <- (firstn_skipn a l). apply in_or_app. right.
  rewrite <- (firstn_skipn b (skipn a l)). apply in_or_app. left. exact H.
Qed.

Lemma in_filter_text (arg : option string) (column : TicketRow -> string)
    (query : list TicketRow) (r : TicketRow) :
  In r (filter_text arg column query) ->
  In r query /\ forall v, truthy arg = Some v -> column r = v.
Proof.
  unfold filter_text. destruct (truthy arg) as [v|].
  - intro H. apply filter_In in H. destruct H as [H1 H2].
    split; [exact H1|]. intros v' E. injection E as <-.
    apply String.eqb_eq, H2.
  - intro H. split; [exact H|discriminate].
Qed.

Lemma in_filter_status (arg : option string) (query : list TicketRow)
    (r : TicketRow) :
  In r (filter_status arg query) ->
  In r query /\ forall v, truthy arg = Some v -> status (ticket r) = Some v.
Proof.
  unfold filter_status. destruct (truthy arg) as [v|].
  - intro H. apply filter_In in H. destruct H as [H1 H2].
    split; [exact H1|]. intros v' E. injection E as <-.
    destruct (status (ticket r)) as [c|]; [|discriminate].
    apply String.eqb_eq in H2. congruence.
  - intro H. split; [exact H|discriminate].
Qed.

Lemma in_filter_agent (arg : option Z) (query : list TicketRow)
    (r : TicketRow) :
  In r (filter_agent arg query) ->
  In r query /\ forall v, truthy_int arg = Some v -> assigned_to r = Some v.
Proof.
  unfold filter_agent. destruct (truthy_int arg) as [v|].
  - intro H. apply filter_In in H. destruct H as [H1 H2].
    split; [exact H1|]. intros v' E. injection E as <-.
    destruct (assigned_to r) as [a|]; [|discriminate].
    apply Z.eqb_eq in H2. congruence.
  - intro H. split; [exact H|discriminate].
Qed.

(** Every row listed is a row of the table and matches each filter that
    was given with a truthy value; with [sla_breach = True] it is overdue
    for a first response or for its resolution. *)
Theorem get_tickets_sound (db : list TicketRow)
    (status_arg priority_arg category_arg : option string)
    (assigned_to_arg : option Z) (sla_breach : option bool)
    (skip limit : nat) (current_time : datetime) (r : TicketRow) :
  In r (get_tickets db status_arg priority_arg category_arg assigned_to_arg
          sla_breach skip limit current_time) ->
  In r db /\
  (forall v, truthy status_arg = Some v -> status (ticket r) = Some v) /\
  (forall v, truthy priority_arg = Some v -> priority (ticket r) = v) /\
  (forall v, truthy category_arg = Some v -> category (ticket r) = v) /\
  (forall v, truthy_int assigned_to_arg = Some v -> assigned_to r = Some v) /\
  (sla_breach = Some true -> overdue current_time r = true).
Proof.
  unfold get_tickets. intro H. apply in_page in H.
  assert (H' : In r (filter_agent assigned_to_arg
                 (filter_text category_arg (fun r => category (ticket r))
                    (filter_text priority_arg (fun r => priority (ticket r))
                       (filter_status status_arg db))))
               /\ (sla_breach = Some true -> overdue current_time r = true)).
  { destruct sla_breach as [[|]|].
    - apply filter_In in H. destruct H as [H1 H2]. split; [exact H1|auto].
    - split; [exact H|discriminate].
    - split; [exact H|discriminate]. }
  destruct H' as [H1 Hb].
  apply in_filter_agent in H1. destruct H1 as [H1 Ha].
  apply in_filter_text in H1. destruct H1 as [H1 Hc].
  apply in_filter_text in H1. destruct H1 as [H1 Hp].
  apply in_filter_status in H1. destruct H1 as [H1 Hs].
  repeat split; assumption.
Qed.

Definition sample_rows : list TicketRow :=
  [mkRow ticket_1 (Some 7) None; mkRow ticket_2 (Some 7) None;
   mkRow ticket_3 None None; mkRow ticket_4 (Some 8) None].

Lemma get_tickets_sound_witness :
  let r := mkRow ticket_1 (Some 7) None in
  In r sample_rows /\
  (forall v, truthy (Some "open"%string) = Some v ->
             status (ticket r) = Some v) /\
  (forall v, truthy None = Some v -> priority (ticket r) = v) /\
  (forall v, truthy None = Some v -> category (ticket r) = v) /\
  (forall v, truthy_int (Some 7) = Some v -> assigned_to r = Some v) /\
  (Some true = Some true -> overdue thursday_noon r = true).
Proof.
  apply (get_tickets_sound sample_rows (Some "open"%string) None None (Some 7)
           (Some true) 0 10 thursday_noon).
  left. reflexivity.
Defined.

(** The listing with [sla_breach = True] and the breach scan: every ticket
    with a breach record is listed, and a listed ticket whose status is set
    and is not "closed" has a breach record.  (The listing does not test
    the status at all, so a closed overdue ticket and an overdue ticket
    without a status are listed without having a record.) *)
Theorem listing_covers_scan (db : list TicketRow) (current_time : datetime) :
  let listed := get_tickets db None None None None (Some true) 0
                  (List.length db) current_time in
  let scan := check_sla_breaches (map ticket db) current_time in
  (forall b, In b scan ->
     exists r, In r listed /\ id (ticket r) = ticket_id b) /\
  (forall r, In r listed -> open_status (ticket r) ->
     exists b, In b scan /\ ticket_id b = id (ticket r)).
Proof.
  intros listed scan.
  assert (L : listed = filter (overdue current_time) db).
  { unfold listed, get_tickets, filter_text, filter_status, filter_agent.
    simpl. apply firstn_all2. apply filter_length_le. }
  rewrite L. unfold scan. split.
  - intros b Hb. rewrite check_sla_breaches_eq in Hb.
    apply in_app_or in Hb. destruct Hb as [Hb|Hb];
      apply in_map_iff in Hb; destruct Hb as [t [<- Ht]];
      apply filter_In in Ht; destruct Ht as [Hin Hp];
      apply in_map_iff in Hin; destruct Hin as [r [<- Hr]];
      exists r; (split; [|reflexivity]); apply filter_In; (split; [exact Hr|]).
    + unfold first_response_filter in Hp. unfold overdue.
      apply andb_true_iff in Hp. destruct Hp as [Hp _]. rewrite Hp. reflexivity.
    + unfold resolution_filter in Hp. unfold overdue.
      apply andb_true_iff in Hp. destruct Hp as [Hp _]. rewrite Hp.
      apply orb_true_r.
  - intros r Hr Hopen. apply filter_In in Hr. destruct Hr as [Hin Ho].
    apply sql_ne_closed in Hopen.
    unfold overdue in Ho. apply orb_true_iff in Ho.
    rewrite check_sla_breaches_eq.
    destruct Ho as [Ho|Ho].
    + exists (first_response_record current_time (ticket r)).
      split; [|reflexivity]. apply in_or_app. left. apply in_map.
      apply filter_In. split; [apply in_map, Hin|].
      unfold first_response_filter. rewrite Ho, Hopen. reflexivity.
    + exists (resolution_record current_time (ticket r)).
      split; [|reflexivity]. apply in_or_app. right. apply in_map.
      apply filter_In. split; [apply in_map, Hin|].
      unfold resolution_filter. rewrite Ho, Hopen. reflexivity.
Qed.

(** The closed ticket of the sample table, and a ticket without a status,
    are listed as overdue although the scan has no record for them. *)
Example closed_ticket_listed :
  In (mkRow ticket_2 (Some 7) None)
     (get_tickets sample_rows None None None None (Some true) 0 10 thursday_noon)
  /\ filter (of_ticket 2)
       (check_sla_breaches (map ticket sample_rows) thursday_noon) = [].
Proof. split; [right; left; reflexivity|reflexivity]. Qed.

Example ticket_without_status_listed :
  get_tickets [mkRow ticket_without_status None None] None None None None
    (Some true) 0 10 thursday_noon
  = [mkRow ticket_without_status None None]
  /\ check_sla_breaches (map ticket [mkRow ticket_without_status None None])
       thursday_noon = [].
Proof. split; reflexivity. Qed.

(** ** Ticket update *)

(** The status tracking touches nothing but the two stamps, and never a
    first response that is already recorded: identity, status,
    classification, creation and due instants stay as they are. *)
Theorem track_status_keeps_commitments (update_status : option string)
    (original_status : option string) (t : Ticket) (utcnow : datetime) :
  let t' := track_status update_status original_status t utcnow in
  id t' = id t /\ status t' = status t /\ priority t' = priority t /\
  category t' = category t /\ created_at t' = created_at t /\
  first_response_due t' = first_response_due t /\
  resolution_due t' = resolution_due t /\ customer t' = customer t /\
  (forall a, first_response_at t = Some a -> first_response_at t' = Some a).
Proof.
  unfold track_status.
  destruct (truthy update_status) as [s|]; [|repeat split; auto].
  destruct (differs s original_status); [|repeat split; auto].
  destruct (String.eqb s "in_progress" && is_null (first_response_at t)) eqn:E.
  - apply andb_true_iff in E. destruct E as [_ E]. apply is_null_true in E.
    repeat split. intros a Ha. congruence.
  - destruct (String.eqb s "resolved"); repeat split; auto.
Qed.

Lemma first_with_id_none (ticket_id : Z) (db : list TicketRow) :
  first_with_id ticket_id db = None
  <-> ~ In ticket_id (map (fun r => id (ticket r)) db).
Proof.
  induction db as [|r db IH]; simpl.
  - split; [intros _ []|reflexivity].
  - destruct (Z.eqb_spec (id (ticket r)) ticket_id) as [E|N].
    + split; [discriminate|]. intro H. exfalso. apply H. left. exact E.
    + rewrite IH. split.
      * intros H [K|K]; [contradiction|exact (H K)].
      * intros H K. apply H. right. exact K.
Qed.

Lemma store_length (ticket_id : Z) (new : TicketRow) (db : list TicketRow) :
  List.length (store ticket_id new db) = List.length db.
Proof.
  induction db as [|r db IH]; simpl; [reflexivity|].
  destruct (id (ticket r) =? ticket_id); simpl; [reflexivity|].
  f_equal. exact IH.
Qed.

Lemma store_others (ticket_id : Z) (new r : TicketRow) (db : list TicketRow) :
  In r db -> id (ticket r) <> ticket_id -> In r (store ticket_id new db).
Proof.
  induction db as [|u db IH]; simpl; intros Hin Hne; [contradiction|].
  destruct (Z.eqb_spec (id (ticket u)) ticket_id) as [E|N].
  - destruct Hin as [->|Hin]; [contradiction|]. right. exact Hin.
  - destruct Hin as [->|Hin]; [left; reflexivity|right; apply IH; assumption].
Qed.

Lemma store_new (ticket_id : Z) (new : TicketRow) (db : list TicketRow) :
  first_with_id ticket_id db <> None -> In new (store ticket_id new db).
Proof.
  induction db as [|u db IH]; simpl; intro H; [contradiction|].
  destruct (id (ticket u) =? ticket_id); [left; reflexivity|].
  right. apply IH, H.
Qed.

Section UpdateTicketFacts.

Variable TicketUpdate : Type.
Variable update_status : TicketUpdate -> option string.
Variable set_fields : TicketUpdate -> TicketRow -> TicketRow.

Let update := update_ticket TicketUpdate update_status set_fields.
Let committed := committed_row TicketUpdate update_status set_fields.

(** The update fails with HTTP status 404 exactly when no row has the
    requested id; the table is then left as it was. *)
Theorem update_ticket_not_found (db : list TicketRow) (ticket_id : Z)
    (u : TicketUpdate) (stamp_time update_time : datetime) :
  (snd (update db ticket_id u stamp_time update_time)
   = Err (HTTPException 404 "Ticket not found")
   <-> ~ In ticket_id (map (fun r => id (ticket r)) db)) /\
  (snd (update db ticket_id u stamp_time update_time)
   = Err (HTTPException 404 "Ticket not found") ->
   fst (update db ticket_id u stamp_time update_time) = db).
Proof.
  rewrite <- first_with_id_none. unfold update, update_ticket.
  destruct (first_with_id ticket_id db); simpl; split;
    try split; try congruence; try discriminate.
Qed.

(** When a row has the requested id, the call commits and then ends in
    [NameError]: no ticket is returned.  The commit replaces one row and
    leaves the others alone: the table keeps its length, every row with
    another id is still there, and the row that was fetched is stored in
    its updated state, with the new [updated_at]. *)
Theorem update_ticket_keeps_other_rows (db : list TicketRow)
    (ticket_id : Z) (u : TicketUpdate) (stamp_time update_time : datetime)
    (row0 : TicketRow) :
  first_with_id ticket_id db = Some row0 ->
  let db' := fst (update db ticket_id u stamp_time update_time) in
  let row' := committed row0 u stamp_time update_time in
  snd (update db ticket_id u stamp_time update_time)
  = Err (NameError "update_sla_metrics") /\
  List.length db' = List.length db /\
  (forall r, In r db -> id (ticket r) <> ticket_id -> In r db') /\
  In row' db' /\ updated_at row' = Some update_time.
Proof.
  intro E. unfold update, update_ticket. rewrite E. cbn [fst snd].
  split; [reflexivity|].
  split; [apply store_length|].
  split; [intros r; apply store_others|].
  split; [apply store_new; congruence|reflexivity].
Qed.


(** An update that sets "resolved" on a ticket whose status was different
    commits a row whose [resolved_at] is the stamp of this update,
    replacing an earlier value.  From then on no scan reports a resolution
    breach for that row.  (The call itself ends in [NameError] after the
    commit.) *)
Theorem update_to_resolved_stamps_resolution
    (db : list TicketRow) (ticket_id : Z) (u : TicketUpdate)
    (stamp_time update_time : datetime) (row0 : TicketRow) :
  first_with_id ticket_id db = Some row0 ->
  update_status u = Some "resolved"%string ->
  status (ticket row0) <> Some "resolved"%string ->
  let row' := committed row0 u stamp_time update_time in
  snd (update db ticket_id u stamp_time update_time)
  = Err (NameError "update_sla_metrics") /\
  In row' (fst (update db ticket_id u stamp_time update_time)) /\
  resolved_at (ticket row') = Some stamp_time /\
  forall now, resolution_filter now (ticket row') = false.
Proof.
  intros E Hs Hne row'.
  unfold update, update_ticket. rewrite E. cbn [fst snd].
  split; [reflexivity|].
  split; [apply store_new; congruence|].
  unfold row', committed, committed_row. rewrite Hs.
  cbn [ticket]. unfold track_status. cbn [truthy].
  assert (D : differs "resolved" (status (ticket row0)) = true).
  { unfold differs. destruct (status (ticket row0)) as [o|]; [|reflexivity].
    destruct (String.eqb_spec "resolved" o) as [K|_];
      [subst o; contradiction|reflexivity]. }
  rewrite D.
  change (String.eqb "resolved" "in_progress") with false. cbn [andb].
  rewrite String.eqb_refl.
  split; [reflexivity|].
  intro now. unfold resolution_filter, with_resolved_at.
  cbn [resolved_at is_null]. rewrite andb_false_r. reflexivity.
Qed.

End UpdateTicketFacts.

(** An instance of the schema for the examples: an update that carries at
    most a status. *)
Definition with_status (t : Ticket) (s : option string) : Ticket :=
  mkTicket (id t) s (priority t) (category t) (created_at t)
           (first_response_at t) (resolved_at t) (first_response_due t)
           (resolution_due t) (customer t).

Definition status_only (u : option string) : option string := u.

Definition set_status_only (u : option string) (r : TicketRow) : TicketRow :=
  match u with
  | Some s => mkRow (with_status (ticket r) (Some s)) (assigned_to r) (updated_at r)
  | None => r
  end.

Definition row_1 : TicketRow := mkRow ticket_1 (Some 7) None.
Definition row_3 : TicketRow := mkRow ticket_3 None None.

Definition row_3_resolved : TicketRow :=
  mkRow (with_resolved_at (with_status ticket_3 (Some "resolved"%string))
           (Some thursday_noon))
        None (Some friday_9).


Lemma update_ticket_keeps_other_rows_witness :
  snd (update_ticket (option string) status_only set_status_only sample_rows 3
         (Some "resolved"%string) thursday_noon friday_9)
  = Err (NameError "update_sla_metrics") /\
  fst (update_ticket (option string) status_only set_status_only sample_rows 3
         (Some "resolved"%string) thursday_noon friday_9)
  = [row_1; mkRow ticket_2 (Some 7) None; row_3_resolved;
     mkRow ticket_4 (Some 8) None].
Proof.
  pose proof (update_ticket_keeps_other_rows (option string) status_only
                set_status_only sample_rows 3 (Some "resolved"%string)
                thursday_noon friday_9 row_3 eq_refl) as H.
  split; [exact (proj1 H)|reflexivity].
Defined.


Lemma update_to_resolved_stamps_resolution_witness :
  resolved_at (ticket row_3_resolved) = Some thursday_noon /\
  forall now, resolution_filter now (ticket row_3_resolved) = false.
Proof.
  pose proof (update_to_resolved_stamps_resolution (option string)
                status_only set_status_only sample_rows 3
                (Some "resolved"%string) thursday_noon friday_9 row_3
                eq_refl eq_refl) as H.
  apply H. discriminate.
Defined.

(** * The report over Python's numbers *)

Module Numbers.

(** The float operations [generate_sla_report] uses.  Divisors are never
    zero where the report divides (the guards [total_tickets > 0] and
    [if first_response_times:], the constant 3600). *)
Record arithmetic : Type := mkArithmetic {
  flt : Type;
  (** [a / b] for two ints *)
  int_div : Z -> Z -> flt;
  (** [td.total_seconds()] for a timedelta of [td] microseconds *)
  total_seconds_of : Z -> flt;
  (** [x / n] for a float and an int *)
  div_by_int : flt -> Z -> flt;
  (** [x * n] for a float and an int *)
  mul_by_int : flt -> Z -> flt;
  (** [sum(xs)] for a non-empty list of floats *)
  sum_of : list flt -> flt;
  (** [round(x, 2)] for a float *)
  round_2 : flt -> flt
}.

(** A Python number: the report holds the int 0 where no division was
    made, and a float elsewhere. *)
Inductive number (A : arithmetic) : Type :=
| Int (z : Z)
| Float (x : flt A).
Arguments Int {A} z.
Arguments Float {A} x.

(** [round(n, 2)]: an int is returned as it is. *)
Definition round_number {A : arithmetic} (n : number A) : number A :=
  match n with
  | Int z => Int z
  | Float x => Float (round_2 A x)
  end.

Record SLAFiguresIn (A : arithmetic) : Type := mkFiguresIn {
  compliance_rate_in : number A;
  tickets_met_in : Z;
  avg_time_hours_in : number A
}.
Arguments mkFiguresIn {A}.
Arguments compliance_rate_in {A}.
Arguments tickets_met_in {A}.
Arguments avg_time_hours_in {A}.

Record SLAReportIn (A : arithmetic) : Type := mkReportIn {
  period_start_in : datetime;
  period_end_in : datetime;
  total_tickets_in : Z;
  first_response_sla_in : SLAFiguresIn A;
  resolution_sla_in : SLAFiguresIn A
}.
Arguments mkReportIn {A}.
Arguments period_start_in {A}.
Arguments period_end_in {A}.
Arguments total_tickets_in {A}.
Arguments first_response_sla_in {A}.
Arguments resolution_sla_in {A}.

Record tally_in (A : arithmetic) : Type := mkTallyIn {
  first_response_met_in : Z;
  resolution_met_in : Z;
  first_response_times_in : list (flt A);
  resolution_times_in : list (flt A)
}.
Arguments mkTallyIn {A}.
Arguments first_response_met_in {A}.
Arguments resolution_met_in {A}.
Arguments first_response_times_in {A}.
Arguments resolution_times_in {A}.

(** [(a - b).total_seconds() / 3600] *)
Definition hours_between_in (A : arithmetic) (a b : datetime) : flt A :=
  div_by_int A (total_seconds_of A (sub a b)) 3600.

Definition tally_ticket_in (A : arithmetic) (s : tally_in A) (ticket : Ticket)
  : tally_in A :=
  let s :=
    match first_response_at ticket with
    | Some at_ =>
        let response_time := hours_between_in A at_ (created_at ticket) in
        mkTallyIn (if leb at_ (first_response_due ticket)
                   then first_response_met_in s + 1
                   else first_response_met_in s)
                  (resolution_met_in s)
                  (first_response_times_in s ++ [response_time])
                  (resolution_times_in s)
    | None => s
    end in
  match resolved_at ticket with
  | Some at_ =>
      let resolution_time := hours_between_in A at_ (created_at ticket) in
      mkTallyIn (first_response_met_in s)
                (if leb at_ (resolution_due ticket)
                 then resolution_met_in s + 1 else resolution_met_in s)
                (first_response_times_in s)
                (resolution_times_in s ++ [resolution_time])
  | None => s
  end.

(** [avg = 0], then [if xs: avg = sum(xs) / len(xs)] *)
Definition average_in (A : arithmetic) (xs : list (flt A)) : number A :=
  match xs with
  | [] => Int 0
  | _ :: _ => Float (div_by_int A (sum_of A xs) (len xs))
  end.

(** [(met / total * 100) if total > 0 else 0] *)
Definition compliance_in (A : arithmetic) (met total : Z) : number A :=
  if 0 <? total then Float (mul_by_int A (int_div A met total) 100)
  else Int 0.

Definition generate_sla_report_in (A : arithmetic) (db : list Ticket)
    (start_date end_date : datetime) (category_arg : option string)
  : outcome (SLAReportIn A) :=
  let tickets := query_tickets db start_date end_date category_arg in
  let total_tickets := len tickets in
  let s := fold_left (tally_ticket_in A) tickets (mkTallyIn 0 0 [] []) in
  let avg_first_response_time := average_in A (first_response_times_in s) in
  let avg_resolution_time := average_in A (resolution_times_in s) in
  let first_response_compliance :=
    compliance_in A (first_response_met_in s) total_tickets in
  let resolution_compliance :=
    compliance_in A (resolution_met_in s) total_tickets in
  Returned
    (mkReportIn start_date end_date total_tickets
       (mkFiguresIn (round_number first_response_compliance)
                    (first_response_met_in s)
                    (round_number avg_first_response_time))
       (mkFiguresIn (round_number resolution_compliance)
                    (resolution_met_in s)
                    (round_number avg_resolution_time))).

(** The exact rationals as an instance: the idealisation used above. *)
Definition exact : arithmetic :=
  mkArithmetic Q
    (fun a b => (inject_Z a / inject_Z b)%Q)
    total_seconds
    (fun x n => (x / inject_Z n)%Q)
    (fun x n => (x * inject_Z n)%Q)
    sum
    round2.

Definition to_Q (n : number exact) : Q :=
  match n with
  | Int z => inject_Z z
  | Float x => x
  end.

(** IEEE 754 binary64, the floats of CPython. *)
Module Binary64.

(** An int as an exact binary number, whatever its size. *)
Definition exact_int (z : Z) : SpecFloat.spec_float :=
  match z with
  | Z0 => SpecFloat.S754_zero false
  | Zpos p => SpecFloat.S754_finite false p 0
  | Zneg p => SpecFloat.S754_finite true p 0
  end.

(** [a / b] for two ints: the exact quotient, rounded once to the nearest
    float, ties to even.  (Python raises where this gives an infinity or a
    NaN: a zero divisor, a quotient beyond the floats.) *)
Definition int_true_div (a b : Z) : PrimFloat.float :=
  FloatOps.SF2Prim
    (SpecFloat.SFdiv FloatOps.prec FloatOps.emax (exact_int a) (exact_int b)).

(** [float(z)], the float nearest to the int. *)
Definition float_of_Z (z : Z) : PrimFloat.float := int_true_div z 1.

(** The exact absolute value of a finite float. *)
Definition magnitude (x : PrimFloat.float) : option Q :=
  match FloatOps.Prim2SF x with
  | SpecFloat.S754_zero _ => Some 0%Q
  | SpecFloat.S754_finite _ m e =>
      Some (if 0 <=? e then inject_Z (Zpos m * 2 ^ e)
            else Qmake (Zpos m) (Pos.pow 2 (Z.to_pos (- e))))
  | _ => None
  end.

Definition negative (x : PrimFloat.float) : bool :=
  match FloatOps.Prim2SF x with
  | SpecFloat.S754_zero s => s
  | SpecFloat.S754_finite s _ _ => s
  | SpecFloat.S754_infinity s => s
  | SpecFloat.S754_nan => false
  end.

(** [round(x, 2)]: the exact value of [x] is rounded to two decimals, ties
    to even, and the decimal is converted back to the nearest float, the
    sign being kept; an infinity or a NaN is returned as it is. *)
Definition round_2_float (x : PrimFloat.float) : PrimFloat.float :=
  match magnitude x with
  | Some q =>
      let r := int_true_div (round_half_even (q * inject_Z 100)) 100 in
      if negative x then PrimFloat.opp r else r
  | None => x
  end.

(** The instance.  [timedelta.total_seconds()] is the int division of the
    microseconds by [10**6]; an int operand of a float operation is
    converted first; [sum] starts from the int 0 and adds from the left,
    one rounding per addition (CPython up to 3.11). *)
Definition binary64 : arithmetic :=
  mkArithmetic PrimFloat.float
    int_true_div
    (fun td => int_true_div td 1000000)
    (fun x n => PrimFloat.div x (float_of_Z n))
    (fun x n => PrimFloat.mul x (float_of_Z n))
    (fun xs => fold_left PrimFloat.add xs (float_of_Z 0))
    round_2_float.

End Binary64.

End Numbers.
Import Numbers.

(** ** The averages of the report *)

(** [later - earlier] in hours, in the operations of the arithmetic: the
    difference of the two instants in microseconds, read as seconds and
    divided by 3600. *)
Definition elapsed_hours (A : arithmetic) (later earlier : datetime) : flt A :=
  div_by_int A (total_seconds_of A (to_us later - to_us earlier)) 3600.

(** The response times of the tickets that have a first response, in table
    order; a ticket without one contributes nothing. *)
Definition response_hours (A : arithmetic) (tickets : list Ticket)
  : list (flt A) :=
  flat_map (fun t => match first_response_at t with
                     | Some at_ => [elapsed_hours A at_ (created_at t)]
                     | None => []
                     end) tickets.

Definition resolution_hours (A : arithmetic) (tickets : list Ticket)
  : list (flt A) :=
  flat_map (fun t => match resolved_at t with
                     | Some at_ => [elapsed_hours A at_ (created_at t)]
                     | None => []
                     end) tickets.

(** [round(sum(xs) / n, 2)] *)
Definition rounded_mean (A : arithmetic) (xs : list (flt A)) (n : Z) : number A :=
  Float (round_2 A (div_by_int A (sum_of A xs) n)).

Lemma response_hours_length (A : arithmetic) (l : list Ticket) :
  List.length (response_hours A l) = List.length (filter has_first_response l).
Proof.
  induction l as [|t l IH]; simpl; [reflexivity|].
  unfold has_first_response at 1.
  destruct (first_response_at t); simpl; rewrite IH; reflexivity.
Qed.

Lemma resolution_hours_length (A : arithmetic) (l : list Ticket) :
  List.length (resolution_hours A l) = List.length (filter is_resolved l).
Proof.
  induction l as [|t l IH]; simpl; [reflexivity|].
  unfold is_resolved at 1.
  destruct (resolved_at t); simpl; rewrite IH; reflexivity.
Qed.

(** What the [for] loop has accumulated after a run over [l]. *)
Lemma tally_fold_in (A : arithmetic) (l : list Ticket) :
  forall s,
    let s' := fold_left (tally_ticket_in A) l s in
    first_response_times_in s'
    = first_response_times_in s ++ response_hours A l /\
    resolution_times_in s'
    = resolution_times_in s ++ resolution_hours A l /\
    first_response_met_in s'
    = first_response_met_in s + len (filter first_response_on_time l) /\
    resolution_met_in s'
    = resolution_met_in s + len (filter resolved_on_time l).
Proof.
  induction l as [|t l IH]; intro s; simpl.
  - rewrite !app_nil_r, len_nil. repeat split; lia.
  - destruct (IH (tally_ticket_in A s t)) as [H1 [H2 [H3 H4]]].
    rewrite H1, H2, H3, H4. clear IH H1 H2 H3 H4.
    unfold tally_ticket_in, first_response_on_time, resolved_on_time,
      hours_between_in, elapsed_hours, sub.
    destruct (first_response_at t) as [a|] eqn:Ea,
             (resolved_at t) as [b|] eqn:Eb; simpl;
      repeat match goal with
             | |- context [leb ?x ?y] => destruct (leb x y); simpl
             end;
      rewrite ?len_cons, <- ?app_assoc; simpl;
      repeat split; try reflexivity; lia.
Qed.

Lemma average_in_rounded_mean (A : arithmetic) (xs : list (flt A))
    (selected : list Ticket) :
  List.length xs = List.length selected ->
  round_number (average_in A xs)
  = match selected with
    | [] => Int 0
    | _ :: _ => rounded_mean A xs (len selected)
    end.
Proof.
  intro H. destruct xs as [|x xs], selected as [|t l]; try discriminate H.
  - reflexivity.
  - unfold average_in, round_number, rounded_mean, len. rewrite H. reflexivity.
Qed.

(** C9: whatever the float arithmetic, the reported average response time
    is [round(sum / count, 2)], where the sum runs over the values
    [(first_response_at - created_at).total_seconds() / 3600] of exactly
    the selected tickets that have a first response, late or not, and the
    count is their number (and it is the int 0 when there is none).
    Tickets without a first response add nothing to the sum or the count,
    yet every selected ticket counts in [total_tickets]; the met-count is
    taken over a different set, the tickets answered on time.  The same
    holds for the resolution figures with [resolved_at]. *)
Theorem report_averages (A : arithmetic) (db : list Ticket)
    (start_date end_date : datetime) (category_arg : option string) :
  let tickets := query_tickets db start_date end_date category_arg in
  let answered := filter has_first_response tickets in
  let resolved := filter is_resolved tickets in
  exists r,
    generate_sla_report_in A db start_date end_date category_arg = Returned r /\
    total_tickets_in r = len tickets /\
    List.length (response_hours A tickets) = List.length answered /\
    List.length (resolution_hours A tickets) = List.length resolved /\
    avg_time_hours_in (first_response_sla_in r)
    = match answered with
      | [] => Int 0
      | _ :: _ => rounded_mean A (response_hours A tickets) (len answered)
      end /\
    avg_time_hours_in (resolution_sla_in r)
    = match resolved with
      | [] => Int 0
      | _ :: _ => rounded_mean A (resolution_hours A tickets) (len resolved)
      end /\
    tickets_met_in (first_response_sla_in r)
    = len (filter first_response_on_time tickets) /\
    tickets_met_in (resolution_sla_in r)
    = len (filter resolved_on_time tickets).
Proof.
  intros tickets answered resolved. eexists. split; [reflexivity|].
  fold tickets.
  destruct (tally_fold_in A tickets (mkTallyIn 0 0 [] [])) as [H1 [H2 [H3 H4]]].
  cbn [first_response_times_in resolution_times_in first_response_met_in
       resolution_met_in app] in H1, H2, H3, H4.
  cbn [total_tickets_in avg_time_hours_in tickets_met_in
       first_response_sla_in resolution_sla_in].
  rewrite H1, H2, H3, H4, !Z.add_0_l.
  pose proof (response_hours_length A tickets) as L1.
  pose proof (resolution_hours_length A tickets) as L2.
  split; [reflexivity|]. split; [exact L1|]. split; [exact L2|].
  split; [apply average_in_rounded_mean, L1|].
  split; [apply average_in_rounded_mean, L2|].
  split; reflexivity.
Qed.

(** A ticket without a first response leaves the list of response times as
    it is; a ticket with one adds its own value, whatever its due instant. *)
Lemma response_hours_insert (A : arithmetic) (l1 l2 : list Ticket) (t : Ticket) :
  response_hours A (l1 ++ t :: l2)
  = response_hours A l1
    ++ match first_response_at t with
       | Some at_ => [elapsed_hours A at_ (created_at t)]
       | None => []
       end
    ++ response_hours A l2.
Proof.
  unfold response_hours. rewrite flat_map_app. reflexivity.
Qed.

(** On exact rationals the report above is the report of
    [generate_sla_report], the int 0 being read as the rational 0. *)
Definition to_tally (s : tally_in exact) : tally :=
  mkTally (first_response_met_in s) (resolution_met_in s)
          (first_response_times_in s) (resolution_times_in s).

Lemma tally_ticket_exact (s : tally_in exact) (t : Ticket) :
  tally_ticket (to_tally s) t = to_tally (tally_ticket_in exact s t).
Proof.
  destruct s as [a b c d].
  unfold tally_ticket, tally_ticket_in, to_tally.
  destruct (first_response_at t), (resolved_at t); reflexivity.
Qed.

Lemma tally_in_exact (l : list Ticket) :
  forall s : tally_in exact,
    fold_left tally_ticket l (to_tally s)
    = to_tally (fold_left (tally_ticket_in exact) l s).
Proof.
  induction l as [|t l IH]; intro s; [reflexivity|].
  cbn [fold_left]. rewrite tally_ticket_exact. apply IH.
Qed.

Lemma exact_report_agrees (db : list Ticket) (start_date end_date : datetime)
    (category_arg : option string) :
  exists r,
    generate_sla_report_in exact db start_date end_date category_arg
    = Returned r /\
    generate_sla_report db start_date end_date category_arg
    = Returned
        (mkReport (period_start_in r) (period_end_in r) (total_tickets_in r)
           (mkFigures (to_Q (compliance_rate_in (first_response_sla_in r)))
                      (tickets_met_in (first_response_sla_in r))
                      (to_Q (avg_time_hours_in (first_response_sla_in r))))
           (mkFigures (to_Q (compliance_rate_in (resolution_sla_in r)))
                      (tickets_met_in (resolution_sla_in r))
                      (to_Q (avg_time_hours_in (resolution_sla_in r))))).
Proof.
  eexists. split; [reflexivity|].
  unfold generate_sla_report.
  change (mkTally 0 0 [] []) with (to_tally (mkTallyIn 0 0 [] [])).
  rewrite tally_in_exact.
  set (s := fold_left (tally_ticket_in exact) _ _).
  unfold to_tally.
  cbn [first_response_met resolution_met first_response_times resolution_times
       period_start_in period_end_in total_tickets_in first_response_sla_in
       resolution_sla_in compliance_rate_in tickets_met_in avg_time_hours_in].
  assert (Av : forall xs : list Q,
             round2 (average xs) = to_Q (round_number (average_in exact xs))).
  { intros [|x xs]; reflexivity. }
  assert (Co : forall m n,
             round2 (compliance m n) = to_Q (round_number (compliance_in exact m n))).
  { intros m n. unfold compliance, compliance_in.
    destruct (0 <? n); reflexivity. }
  rewrite !Av, !Co. reflexivity.
Qed.

(** ** The report in binary64 *)

(** A ticket answered 9630 seconds (2.675 hours) after its creation, and
    one that was never answered. *)
Definition monday_11_40_30 : datetime := mkdt 739201 11 40 30 0.

Definition ticket_7 : Ticket :=
  mkTicket 7 (Some "in_progress"%string) "high" "billing" monday_9
           (Some monday_11_40_30) None monday_13 tuesday_15 None.
Definition ticket_8 : Ticket :=
  mkTicket 8 (Some "open"%string) "low" "billing" monday_9 None None
           monday_13 tuesday_15 None.

(** The float nearest to [n / 100], as a number of the report. *)
Definition hundredths (n : Z) : number Binary64.binary64 :=
  Float (A := Binary64.binary64) (Binary64.int_true_div n 100).

(** In binary64 the quotient 9630.0 / 3600 lies just below 2.675 and the
    report says 2.67; the unanswered ticket counts in [total_tickets] (and
    halves the compliance rate) but not in the average.  On exact
    rationals the same mean is the tie 2.675, which rounds to 2.68. *)
Example report_in_binary64 :
  generate_sla_report_in Binary64.binary64 [ticket_7; ticket_8]
    monday_9 friday_9 None
  = Returned
      (mkReportIn monday_9 friday_9 2
         (mkFiguresIn (hundredths 5000) 1 (hundredths 267))
         (mkFiguresIn (hundredths 0) 0 (Int 0)))
  /\ generate_sla_report [ticket_7; ticket_8] monday_9 friday_9 None
     = Returned
         (mkReport monday_9 friday_9 2
            (mkFigures 50 1 (67 # 25)) (mkFigures 0 0 0)).
Proof. split; reflexivity. Qed.
